(** * Staff day-schedule generation (StaffScheduleManager.tsx)

    A shallow embedding of the schedule generator of
    [src/client/components/StaffScheduleManager.tsx]: the time helpers,
    the duration table, the travel-time estimator, the shift resolution,
    the day builder, the week aggregator and the CSV exporter.

    Conventions of the embedding.
    - JavaScript integers are [Z]; a number that may be [NaN] is
      [option Z] with [None] for [NaN].  Coordinates and the values of
      [Math.random()] are idealised as real numbers ([R]).
    - A value that may be [undefined]/[null] is an [option]; a string is
      falsy when it is absent or empty.
    - A [Date] object is its time value (milliseconds since the epoch) or
      [InvalidDate].
    - Exceptions are explicit: a computation returns [Ok v] or [Throw e].
      [Math.random()] is a stream of reals read through a draw counter. *)

From Stdlib Require Import ZArith List String Ascii Reals Lra Lia DecimalString.
From Stdlib Require Import Sorting.Sorted Sorting.Permutation.
From stdpp Require Import gmap strings.

Open Scope Z_scope.

(* ===================================================================== *)
(** ** JavaScript primitives used by the component *)
(* ===================================================================== *)

Module Js.

(** An integral JavaScript number, or [NaN] ([None]). *)
Definition number := option Z.

Definition lift2 (f : Z -> Z -> Z) (a b : number) : number :=
  match a, b with
  | Some x, Some y => Some (f x y)
  | _, _ => None
  end.

Definition add := lift2 Z.add.
Definition sub := lift2 Z.sub.
Definition mul := lift2 Z.mul.

(** [Math.floor(a / d)] for a positive integer literal [d]. *)
Definition floor_div (a : number) (d : Z) : number :=
  match a with Some x => Some (x / d) | None => None end.

(** [a % d]: the remainder takes the sign of the dividend. *)
Definition rem (a : number) (d : Z) : number :=
  match a with Some x => Some (Z.rem x d) | None => None end.

(** [Math.max(k, a)] for an integer literal [k]; [NaN] is absorbing. *)
Definition max_lit (k : Z) (a : number) : number :=
  match a with Some x => Some (Z.max k x) | None => None end.

(** [a > 0]; every comparison with [NaN] is false. *)
Definition gt0 (a : number) : bool :=
  match a with Some x => 0 <? x | None => false end.

(** [Number.prototype.toString()] on an integer or [NaN]. *)
Definition Z_toString (z : Z) : string := NilZero.string_of_int (Z.to_int z).

Definition toString (a : number) : string :=
  match a with Some x => Z_toString x | None => "NaN" end.

(** [Number(s)] on the strings the component feeds it: a run of decimal
    digits is its value and the empty string is [0].  Signs, fractions,
    exponents, radix prefixes and surrounding blanks never occur in the
    [HH:mm] strings handled here and are mapped to [NaN]. *)
Definition Number (s : string) : number :=
  match NilEmpty.uint_of_string s with
  | Some u => Some (Z.of_uint u)
  | None => None
  end.

Fixpoint repeat_char (c : ascii) (n : nat) : string :=
  match n with
  | O => EmptyString
  | S n' => String c (repeat_char c n')
  end.

(** [s.padStart(n, "0")]. *)
Definition padStart0 (n : nat) (s : string) : string :=
  repeat_char "0"%char (n - String.length s) +:+ s.

(** [s.split(sep)] for a one-character separator: the pieces between
    the occurrences of [sep], in order; the empty string has one piece. *)
Fixpoint split (sep : ascii) (s : string) : list string :=
  match s with
  | EmptyString => [EmptyString]
  | String c s' =>
      if Ascii.eqb c sep then EmptyString :: split sep s'
      else match split sep s' with
           | p :: ps => String c p :: ps
           | [] => [String c EmptyString]
           end
  end.

(** [arr.filter(p)] for a predicate [p] that rejects [null] and
    [undefined]: the kept elements, as values that are present. *)
Fixpoint filter_present {A B} (f : option A -> option B) (l : list (option A)) : list B :=
  match l with
  | [] => []
  | x :: l' =>
      match f x with
      | Some y => y :: filter_present f l'
      | None => filter_present f l'
      end
  end.

(** [arr.join(sep)]. *)
Definition join (sep : string) (l : list string) : string := String.concat sep l.

(** Truthiness of a possibly absent string. *)
Definition truthy (s : option string) : bool :=
  match s with
  | Some s => negb (String.eqb s EmptyString)
  | None => false
  end.

(** [a || d] on strings. *)
Definition or_else (a : option string) (d : string) : string :=
  match a with
  | Some s => if String.eqb s EmptyString then d else s
  | None => d
  end.

(** Exceptions raised by the code paths of the component. *)
Inductive exn := RangeError | TypeError.

Inductive result (A : Type) :=
| Ok (a : A)
| Throw (e : exn).
Arguments Ok {A} a.
Arguments Throw {A} e.

End Js.

Import Js.

(* ===================================================================== *)
(** ** Time arithmetic helpers (lines 281-301) *)
(* ===================================================================== *)

(** [const [hours, mins] = time.split(":").map(Number)]: the first two
    pieces, a missing piece being [undefined]. *)
Definition parseTime (time : string) : number * number :=
  let parts := map Number (split ":"%char time) in
  (match parts with h :: _ => h | [] => None end,
   match parts with _ :: m :: _ => m | _ => None end).

(** The template [`${h.toString().padStart(2,"0")}:${m.toString().padStart(2,"0")}`]. *)
Definition formatTime (h m : number) : string :=
  padStart0 2 (toString h) +:+ ":" +:+ padStart0 2 (toString m).

Definition addMinutes (time : string) (minutes : Z) : string :=
  let '(hours, mins) := parseTime time in
  let totalMinutes := add (add (mul hours (Some 60)) mins) (Some minutes) in
  let newHours := rem (floor_div totalMinutes 60) 24 in
  let newMins := rem totalMinutes 60 in
  formatTime newHours newMins.

Definition subtractMinutes (time : string) (minutes : Z) : string :=
  let '(hours, mins) := parseTime time in
  let totalMinutes := sub (add (mul hours (Some 60)) mins) (Some minutes) in
  let newHours := max_lit 0 (floor_div totalMinutes 60) in
  let newMins := max_lit 0 (rem totalMinutes 60) in
  formatTime newHours newMins.

Definition compareTime (time1 time2 : string) : number :=
  let '(h1, m1) := parseTime time1 in
  let '(h2, m2) := parseTime time2 in
  sub (add (mul h1 (Some 60)) m1) (add (mul h2 (Some 60)) m2).

(** A zero-padded [HH:MM] clock time. *)
Definition clock (h m : Z) : string := formatTime (Some h) (Some m).

(* ===================================================================== *)
(** ** Duration policy table (lines 262-279) *)
(* ===================================================================== *)

(** The [switch] compares [category] with each label in turn by strict
    equality; [undefined] matches no label. *)
Definition getJobDuration (category : option string) : Z :=
  match category with
  | Some c =>
      if String.eqb c "Geyser Replacement" then 180
      else if String.eqb c "Geyser Assessment" then 60
      else if String.eqb c "Leak Detection" then 120
      else if String.eqb c "Drain Blockage" then 90
      else if String.eqb c "Camera Inspection" then 75
      else if String.eqb c "Toilet/Shower" then 90
      else 60
  | None => 60
  end.

(* ===================================================================== *)
(** ** Travel-time estimator (lines 251-260) *)
(* ===================================================================== *)

Record Coordinates := { lat : R; lng : R }.

(** [Math.round(x)]: the nearest integer, ties towards plus infinity. *)
Definition Math_round (x : R) : Z := Int_part (x + / 2)%R.

(** Coordinates are real numbers and the arithmetic is exact.  The
    program evaluates the same expression in binary floating point, so
    its result can differ by one from this value when the scaled distance
    is within rounding error of a half-integer.  The bounds 15 and 60,
    the symmetry, and statements that keep a margin around the
    half-integers do not depend on the difference. *)
Definition estimateTravelTime (from to : Coordinates) : Z :=
  let distance :=
    sqrt ((lat to - lat from) ^ 2 + (lng to - lng from) ^ 2)%R in
  Z.max 15 (Z.min 60 (Math_round (distance * 3000)%R)).

(* ===================================================================== *)
(** ** Data model *)
(* ===================================================================== *)

(** A [Date] object: its time value in milliseconds, or [Invalid Date]. *)
Inductive Date := TimeValue (t : Z) | InvalidDate.

(** [schedule?: { workingLateShift?, shiftStartTime?, shiftEndTime? }]. *)
Module StaffSchedule.
Record t := mk {
  workingLateShift : option bool;
  shiftStartTime : option string;
  shiftEndTime : option string
}.
End StaffSchedule.

Module User.
Record t := mk {
  id : option string;
  name : option string;
  role : string;
  city : option string;            (* [location?.city] *)
  schedule : option StaffSchedule.t
}.
End User.

Module Job.
Record t := mk {
  id : option string;
  assignedTo : option string;
  dueDate : option string;
  category : option string;
  riskAddress : option string;
  RiskAddress : option string;
  title : option string
}.
End Job.

Inductive EntryType := base | job | travel | end_.

(** [ScheduleEntry].  [location] is declared a string; it is [undefined]
    only when the base data was resolved through the prototype chain of
    [BASE_LOCATIONS] (see [lookupBase]). *)
Record ScheduleEntry := mkEntry {
  time : string;
  type : EntryType;
  location : option string;
  description : string;
  jobId : option string;
  estimatedDuration : option Z;
  coordinates : option Coordinates
}.

Record BaseLocation := { address : string; base_coordinates : Coordinates }.

Definition Johannesburg : BaseLocation :=
  {| address := "5 Thora Cres, Wynberg, Sandton, 2090";
     base_coordinates := {| lat := (-26.1076)%R; lng := 28.0567%R |} |}.

Definition Cape_Town : BaseLocation :=
  {| address := "98 Marine Dr, Paarden Eiland, Cape Town, 7405";
     base_coordinates := {| lat := (-33.8903)%R; lng := 18.4979%R |} |}.

(** The value of [BASE_LOCATIONS[key]]: one of the two own entries, a
    member inherited from [Object.prototype] (truthy, without [address]
    or [coordinates]), or [undefined]. *)
Inductive BaseLookup := Own (b : BaseLocation) | Inherited | Undefined.

Definition Object_prototype_keys : list string :=
  [ "constructor"; "toString"; "toLocaleString"; "valueOf"; "hasOwnProperty";
    "isPrototypeOf"; "propertyIsEnumerable"; "__proto__"; "__defineGetter__";
    "__defineSetter__"; "__lookupGetter__"; "__lookupSetter__" ]%string.

Definition lookupBase (key : string) : BaseLookup :=
  if String.eqb key "Johannesburg" then Own Johannesburg
  else if String.eqb key "Cape Town" then Own Cape_Town
  else if existsb (String.eqb key) Object_prototype_keys then Inherited
  else Undefined.

Definition type_name (ty : EntryType) : string :=
  match ty with
  | base => "base"
  | job => "job"
  | travel => "travel"
  | end_ => "end"
  end.

(** The double-quote character of the CSV template. *)
Definition dquote : string := String (ascii_of_nat 34) EmptyString.

(** The line feed of [rows.join("\n")]. *)
Definition LF : ascii := ascii_of_nat 10.

(* ===================================================================== *)
(** ** Vocabulary of the properties *)
(* ===================================================================== *)

(** [clamp lo hi x]: [x] brought into the interval from [lo] to [hi]. *)
Definition clamp (lo hi x : Z) : Z :=
  if x <? lo then lo else if hi <? x then hi else x.

(** The [HH:MM] text of a count of minutes since midnight. *)
Definition formatMinutes (t : Z) : string := clock (t / 60) (t mod 60).

(** Does the character occur in the string? *)
Fixpoint has_char (c : ascii) (s : string) : bool :=
  match s with
  | EmptyString => false
  | String c' s' => Ascii.eqb c' c || has_char c s'
  end.

(** The lines of a text: its pieces between line feeds. *)
Definition lines (text : string) : list string := split LF text.

Definition hasId (j : Job.t) : bool := truthy (Job.id j).

(** The six labels of the duration table. *)
Definition knownCategories : list string :=
  [ "Geyser Replacement"; "Geyser Assessment"; "Leak Detection";
    "Drain Blockage"; "Camera Inspection"; "Toilet/Shower" ]%string.

(** Reading a clock time back gives its hour and minute. *)
Definition reads_back (h m : nat) : bool :=
  match parseTime (clock (Z.of_nat h) (Z.of_nat m)) with
  | (Some a, Some b) => (a =? Z.of_nat h) && (b =? Z.of_nat m)
  | _ => false
  end.

(** The staff record with another [shiftStartTime] and [shiftEndTime]. *)
Definition withShiftTimes (start finish : option string) (u : User.t) : User.t :=
  {| User.id := User.id u;
     User.name := User.name u;
     User.role := User.role u;
     User.city := User.city u;
     User.schedule :=
       Some {| StaffSchedule.workingLateShift :=
                 match User.schedule u with
                 | Some s => StaffSchedule.workingLateShift s
                 | None => None
                 end;
               StaffSchedule.shiftStartTime := start;
               StaffSchedule.shiftEndTime := finish |} |}.

(* ===================================================================== *)
(** ** Sample data: one week of January 2024 in Johannesburg time *)
(* ===================================================================== *)

Module Sample.

(** UTC+2 all year. *)
Definition tzOffset (t : Z) : Z := 7200000.

(** Local midnight of 1 January 2024. *)
Definition jan1_2024 : Z := 1704060000000.

Definition day_ms : Z := 86400000.

(** Local midnight of Monday 8 January 2024. *)
Definition monday : Z := jan1_2024 + 7 * day_ms.

Definition at_0800 : string := "2024-01-08T08:00:00".
Definition at_1330 : string := "2024-01-08T13:30:00".

Definition parseISO (s : string) : Date :=
  if String.eqb s at_0800 then TimeValue (monday + 8 * 3600000)
  else if String.eqb s at_1330 then TimeValue (monday + 13 * 3600000 + 30 * 60000)
  else InvalidDate.

Definition newDate (s : string) : Date := parseISO s.

(** Days of January 2024 only. *)
Definition format_yMd (t : Z) : string :=
  "2024-01-" +:+ padStart0 2 (Z_toString ((t + tzOffset t - (jan1_2024 + 7200000)) / day_ms + 1)).

Definition random (n : nat) : R := (/ 2)%R.

Definition mondayDate : Date := TimeValue monday.

(** The selected week: Wednesday 10 January 2024, 10:00. *)
Definition selectedWeek : Z := monday + 2 * day_ms + 10 * 3600000.

(** The Monday that starts the week of a time value (no clock change). *)
Definition startOfWeek (t : Z) : Z := monday + (t - monday) / (7 * day_ms) * (7 * day_ms).

Definition addDays (t amount : Z) : Z := t + amount * day_ms.

Definition thabo : User.t :=
  {| User.id := Some "s1"; User.name := Some "Thabo"; User.role := "staff";
     User.city := Some "Cape Town"; User.schedule := None |}%string.

(** A staff member whose [workingLateShift] is explicitly [false]. *)
Definition naledi : User.t :=
  {| User.id := Some "s2"; User.name := Some "Naledi"; User.role := "staff";
     User.city := Some "Johannesburg";
     User.schedule :=
       Some {| StaffSchedule.workingLateShift := Some false;
               StaffSchedule.shiftStartTime := Some "05:00";
               StaffSchedule.shiftEndTime := Some "17:00" |} |}%string.

(** A staff member whose [workingLateShift] is explicitly [true]. *)
Definition sipho : User.t :=
  {| User.id := Some "s3"; User.name := Some "Sipho"; User.role := "staff";
     User.city := None;
     User.schedule :=
       Some {| StaffSchedule.workingLateShift := Some true;
               StaffSchedule.shiftStartTime := None;
               StaffSchedule.shiftEndTime := None |} |}%string.

(** A record whose city names a member of [Object.prototype]. *)
Definition odd_city : User.t :=
  {| User.id := Some "s4"; User.name := Some "Odd"; User.role := "staff";
     User.city := Some "constructor"; User.schedule := None |}%string.

Definition staff : list (option User.t) := [Some thabo; Some naledi; Some sipho].

Definition leak : Job.t :=
  {| Job.id := Some "j1"; Job.assignedTo := Some "s1"; Job.dueDate := Some at_0800;
     Job.category := Some "Leak Detection"; Job.riskAddress := Some "123 Main Rd";
     Job.RiskAddress := None; Job.title := Some "Fix leak" |}%string.

Definition geyser : Job.t :=
  {| Job.id := Some "j2"; Job.assignedTo := Some "s1"; Job.dueDate := Some at_1330;
     Job.category := Some "Geyser Replacement"; Job.riskAddress := None;
     Job.RiskAddress := Some "7 Long St"; Job.title := None |}%string.

(** A job for the record with the odd city. *)
Definition odd_job : Job.t :=
  {| Job.id := Some "j3"; Job.assignedTo := Some "s4"; Job.dueDate := Some at_0800;
     Job.category := None; Job.riskAddress := None;
     Job.RiskAddress := None; Job.title := None |}.

Definition jobs : list (option Job.t) := [Some geyser; None; Some leak].

(** An address written on two lines. *)
Definition two_line_address : string :=
  "12 Main Rd" +:+ String LF EmptyString +:+ "Unit 4".

(** The leak job, at the address written on two lines. *)
Definition leak_two_lines : Job.t :=
  {| Job.id := Some "j1"; Job.assignedTo := Some "s1"; Job.dueDate := Some at_0800;
     Job.category := Some "Leak Detection"; Job.riskAddress := Some two_line_address;
     Job.RiskAddress := None; Job.title := Some "Fix leak" |}%string.

(** The Monday of [thabo] with that one job, as the builder lays it out:
    an hour of travel from the Cape Town base, in a late-shift week. *)
Definition two_line_day : list ScheduleEntry :=
  [ {| time := "05:00"; type := base;
       location := Some (address Cape_Town);
       description := "Start shift at base location";
       jobId := None; estimatedDuration := None;
       coordinates := Some (base_coordinates Cape_Town) |};
    {| time := "07:00"; type := travel;
       location := Some ("En route to " +:+ two_line_address);
       description := "Travel time: 60 minutes";
       jobId := None; estimatedDuration := Some 60; coordinates := None |};
    {| time := "08:00"; type := job;
       location := Some two_line_address;
       description := "Fix leak";
       jobId := Some "j1"%string; estimatedDuration := Some 120;
       coordinates := None |};
    {| time := "19:00"; type := end_;
       location := Some "End of shift"%string;
       description := "Shift ends (Late Shift)";
       jobId := None; estimatedDuration := None; coordinates := None |} ].

(** A day of [thabo] without jobs in that week. *)
Definition quiet_day : list ScheduleEntry :=
  [ {| time := "05:00"; type := base;
       location := Some (address Cape_Town);
       description := "Start shift at base location";
       jobId := None; estimatedDuration := None;
       coordinates := Some (base_coordinates Cape_Town) |};
    {| time := "19:00"; type := end_;
       location := Some "End of shift"%string;
       description := "Shift ends (Late Shift)";
       jobId := None; estimatedDuration := None; coordinates := None |} ].

(** The schedule map of the week when [thabo] is the only staff member
    and [leak_two_lines] the only job. *)
Definition two_line_week : gmap string (list ScheduleEntry) :=
  <["s1-2024-01-14"%string := quiet_day]>
    (<["s1-2024-01-13"%string := quiet_day]>
       (<["s1-2024-01-12"%string := quiet_day]>
          (<["s1-2024-01-11"%string := quiet_day]>
             (<["s1-2024-01-10"%string := quiet_day]>
                (<["s1-2024-01-09"%string := quiet_day]>
                   (<["s1-2024-01-08"%string := two_line_day]> ∅)))))).

(** The schedule map of the week when [thabo] has no job at all. *)
Definition quiet_week : gmap string (list ScheduleEntry) :=
  <["s1-2024-01-14"%string := quiet_day]>
    (<["s1-2024-01-13"%string := quiet_day]>
       (<["s1-2024-01-12"%string := quiet_day]>
          (<["s1-2024-01-11"%string := quiet_day]>
             (<["s1-2024-01-10"%string := quiet_day]>
                (<["s1-2024-01-09"%string := quiet_day]>
                   (<["s1-2024-01-08"%string := quiet_day]> ∅)))))).

End Sample.

(* ===================================================================== *)
(** ** The component *)
(* ===================================================================== *)

Section Component.

Set Default Proof Using "Type".

(** The host environment: the local time zone, the two date parsers,
    the calendar formatter of date-fns and the stream of
    [Math.random()] values. *)
Variable tzOffset : Z -> Z.              (* local minus UTC, ms, at a time value *)
Variable parseISO : string -> Date.      (* date-fns [parseISO] *)
Variable newDate : string -> Date.       (* [new Date(s)] *)
Variable jan1_2024 : Z.                  (* time value of [new Date(2024, 0, 1)] *)
Variable format_yMd : Z -> string.       (* [format(d, "yyyy-MM-dd")], [d] valid *)
Variable random : nat -> R.

(** Props and state of the component. *)
Variable jobs : list (option Job.t).
Variable staff : list (option User.t).

(** The state [selectedWeek], as its time value: it starts as [new Date()]
    and is only ever replaced by [new Date()] or by
    [addWeeks(selectedWeek, 1)] and [addWeeks(selectedWeek, -1)], so it is
    always a valid date; [startOfWeek] and [addDays] of date-fns keep
    valid dates valid and are taken on time values. *)
Variable selectedWeek : Z.
Variable startOfWeek : Z -> Z.            (* [startOfWeek(d, { weekStartsOn: 1 })] *)
Variable addDays : Z -> Z -> Z.           (* [addDays(d, amount)] *)

(** *** date-fns and [Date] *)

Definition localTime (t : Z) : Z := t + tzOffset t.

Definition isSameDay (a b : Date) : bool :=
  match a, b with
  | TimeValue x, TimeValue y =>
      localTime x / 86400000 =? localTime y / 86400000
  | _, _ => false
  end.

(** [format(d, "HH:mm")]; throws [RangeError] on an invalid date. *)
Definition format_HHmm (d : Date) : result string :=
  match d with
  | TimeValue t =>
      Ok (clock ((localTime t / 3600000) mod 24) ((localTime t / 60000) mod 60))
  | InvalidDate => Throw RangeError
  end.

(** [format(d, "yyyy-MM-dd")]. *)
Definition format_date (d : Date) : result string :=
  match d with
  | TimeValue t => Ok (format_yMd t)
  | InvalidDate => Throw RangeError
  end.

Definition getTime (d : Date) : number :=
  match d with TimeValue t => Some t | InvalidDate => None end.

(** [differenceInMinutes(a, b)]: the difference truncated towards zero. *)
Definition differenceInMinutes (a b : Date) : number :=
  match a, b with
  | TimeValue x, TimeValue y => Some (Z.quot (x - y) 60000)
  | _, _ => None
  end.

(** Lines 80-81: [weekStart] and the seven [weekDays]. *)
Definition weekStart : Z := startOfWeek selectedWeek.

Definition weekTimes : list Z := map (addDays weekStart) [0; 1; 2; 3; 4; 5; 6].

Definition weekDays : list Date := map TimeValue weekTimes.

(** *** Shift policy (lines 165-167 and 243-249) *)

Definition isLateShiftWeek (date : Date) : bool :=
  let weekNumber :=
    floor_div (differenceInMinutes date (TimeValue jan1_2024)) (7 * 24 * 60) in
  match rem weekNumber 2 with
  | Some 1 => true
  | _ => false
  end.

(** [staffMember.schedule?.workingLateShift]. *)
Definition workingLateShift (u : User.t) : option bool :=
  match User.schedule u with
  | Some s => StaffSchedule.workingLateShift s
  | None => None
  end.

(** [staffMember.schedule?.workingLateShift || isLateShiftWeek(date)]. *)
Definition isLateShift (u : User.t) (date : Date) : bool :=
  match workingLateShift u with
  | Some true => true
  | _ => isLateShiftWeek date
  end.

Definition shiftEndOf (late : bool) : string :=
  if late then "19:00" else "17:00".

(** *** Effects: exceptions and the random stream *)

Definition M (A : Type) : Type := nat -> result A * nat.

Definition ret {A} (a : A) : M A := fun n => (Ok a, n).

Definition bind {A B} (m : M A) (k : A -> M B) : M B :=
  fun n =>
    match m n with
    | (Ok a, n') => k a n'
    | (Throw e, n') => (Throw e, n')
    end.

Definition lift {A} (r : result A) : M A := fun n => (r, n).

Definition Math_random : M R := fun n => (Ok (random n), S n).

(** [try { m } catch (error) { h }]. *)
Definition try_catch {A} (m : M A) (h : M A) : M A :=
  fun n =>
    match m n with
    | (Ok a, n') => (Ok a, n')
    | (Throw _, n') => h n'
    end.

Notation "x <- m ;; k" := (bind m (fun x => k))
  (at level 100, m at next level, right associativity).

(** *** Day schedule builder (lines 130-241) *)

(** The predicate of [jobs.filter(...)] at lines 142-148. *)
Definition isDayJob (u : User.t) (date : Date) (j : Job.t) : bool :=
  bool_decide (Job.assignedTo j = User.id u)
  && truthy (Job.dueDate j)
  && isSameDay (parseISO (default EmptyString (Job.dueDate j))) date.

(** [jobs.filter(...)]: the kept elements are non-null, so the result is
    a list of jobs. *)
Definition dayJobs (u : User.t) (date : Date) : list Job.t :=
  filter_present
    (fun jb =>
       match jb with
       | Some j => if isDayJob u date j then Some j else None
       | None => None
       end) jobs.

(** The comparator of line 151. *)
Definition compareJobs (a b : Job.t) : number :=
  if negb (truthy (Job.dueDate a)) || negb (truthy (Job.dueDate b)) then Some 0
  else sub (getTime (newDate (default EmptyString (Job.dueDate a))))
           (getTime (newDate (default EmptyString (Job.dueDate b)))).

(** [Array.prototype.sort]: the sort is stable, and a comparator result
    of [NaN] counts as [0].  For a consistent comparator the result is
    the unique stable ordering, whichever algorithm the engine runs;
    insertion sort stands for it.  The comparator of line 151 is
    consistent when [new Date] reads every due date it is given; when it
    returns [NaN] for some pair the order the engine produces depends on
    its algorithm, and only the fact that the result is a permutation of
    the input carries over.  Statements about the order of the jobs
    therefore assume readable due dates; the others use the permutation
    alone. *)
Fixpoint sort_insert {A} (cmp : A -> A -> number) (x : A) (l : list A) : list A :=
  match l with
  | [] => [x]
  | y :: l' => if gt0 (cmp x y) then y :: sort_insert cmp x l' else x :: y :: l'
  end.

Definition Array_sort {A} (cmp : A -> A -> number) (l : list A) : list A :=
  fold_right (sort_insert cmp) [] l.

Definition sortedJobs (u : User.t) (date : Date) : list Job.t :=
  Array_sort compareJobs (dayJobs u date).

(** Lines 156-163. *)
Definition baseLocationKey (u : User.t) : string :=
  or_else (User.city u) "Johannesburg".

Definition validBaseLocation (u : User.t) : string :=
  match lookupBase (baseLocationKey u) with
  | Undefined => "Johannesburg"
  | _ => baseLocationKey u
  end.

Definition baseLocationData (u : User.t) : BaseLookup :=
  lookupBase (validBaseLocation u).

Definition baseAddress (b : BaseLookup) : option string :=
  match b with Own l => Some (address l) | _ => None end.

Definition baseCoordinates (b : BaseLookup) : option Coordinates :=
  match b with Own l => Some (base_coordinates l) | _ => None end.

Definition baseEntry (u : User.t) : ScheduleEntry :=
  {| time := "05:00";
     type := base;
     location := baseAddress (baseLocationData u);
     description := "Start shift at base location";
     jobId := None;
     estimatedDuration := None;
     coordinates := baseCoordinates (baseLocationData u) |}.

(** The variables the [forEach] callback closes over. *)
Record LoopState := {
  schedule : list ScheduleEntry;
  currentTime : string;
  currentLocation : option Coordinates
}.

(** The literal [{ lat: -26.2041 + Math.random() * 0.1,
                   lng: 28.0473 + Math.random() * 0.1 }]. *)
Definition jitter : M Coordinates :=
  r1 <- Math_random ;;
  r2 <- Math_random ;;
  ret {| lat := (-26.2041 + r1 * 0.1)%R; lng := (28.0473 + r2 * 0.1)%R |}.

(** The coordinates [jitter] returns when the draw counter is [n]. *)
Definition jitterAt (n : nat) : Coordinates :=
  {| lat := (-26.2041 + random n * 0.1)%R; lng := (28.0473 + random (S n) * 0.1)%R |}.

(** The call [estimateTravelTime(currentLocation, to)]: reading [from.lat]
    of [undefined] raises a [TypeError]. *)
Definition callEstimateTravelTime (from : option Coordinates) (to : Coordinates) : M Z :=
  match from with
  | Some c => ret (estimateTravelTime c to)
  | None => lift (Throw TypeError)
  end.

Definition jobTimeOf (j : Job.t) : M string :=
  if truthy (Job.dueDate j)
  then lift (format_HHmm (parseISO (default EmptyString (Job.dueDate j))))
  else ret "08:00"%string.

Definition jobLocationOf (j : Job.t) : string :=
  or_else (Job.riskAddress j) (or_else (Job.RiskAddress j) "Location not specified").

Definition travelEntry (j : Job.t) (jobTime : string) (travelTime : Z) : ScheduleEntry :=
  {| time := subtractMinutes jobTime travelTime;
     type := travel;
     location := Some ("En route to " +:+ jobLocationOf j);
     description := "Travel time: " +:+ Z_toString travelTime +:+ " minutes";
     jobId := None;
     estimatedDuration := Some travelTime;
     coordinates := None |}.

Definition jobEntry (j : Job.t) (jobTime : string) : ScheduleEntry :=
  {| time := jobTime;
     type := job;
     location := Some (jobLocationOf j);
     description := or_else (Job.title j) "Unnamed Job";
     jobId := Job.id j;
     estimatedDuration := Some (getJobDuration (Job.category j));
     coordinates := None |}.

(** The body of [sortedJobs.forEach] (lines 182-226). *)
Definition visitJob (j : Job.t) (st : LoopState) : M LoopState :=
  if negb (truthy (Job.id j)) then ret st
  else
    jobTime <- jobTimeOf j ;;
    dest <- jitter ;;
    travelTime <- callEstimateTravelTime (currentLocation st) dest ;;
    let schedule1 :=
      if (0 <? travelTime) && negb (String.eqb jobTime EmptyString)
      then schedule st ++ [travelEntry j jobTime travelTime]
      else schedule st in
    let schedule2 := schedule1 ++ [jobEntry j jobTime] in
    let jobDuration := getJobDuration (Some (or_else (Job.category j) "Other")) in
    next <- jitter ;;
    ret {| schedule := schedule2;
           currentTime := addMinutes jobTime jobDuration;
           currentLocation := Some next |}.

Fixpoint forEachJob (js : list Job.t) (st : LoopState) : M LoopState :=
  match js with
  | [] => ret st
  | j :: js' => st' <- visitJob j st ;; forEachJob js' st'
  end.

Definition initialState (u : User.t) : LoopState :=
  {| schedule := [baseEntry u];
     currentTime := "05:00";
     currentLocation := baseCoordinates (baseLocationData u) |}.

Definition endEntry (late : bool) (endTime : string) : ScheduleEntry :=
  {| time := endTime;
     type := end_;
     location := Some "End of shift"%string;
     description :=
       "Shift ends " +:+ (if late then "(Late Shift)" else "(Normal Shift)");
     jobId := None;
     estimatedDuration := None;
     coordinates := None |}.

(** Lines 229-231. *)
Definition endTimeOf (js : list Job.t) (st : LoopState) (shiftEnd : string) : string :=
  let lastJobTime := if (0 <? length js)%nat then currentTime st else "05:00"%string in
  if gt0 (compareTime lastJobTime shiftEnd) then lastJobTime else shiftEnd.

Definition generateDaySchedule (staffMember : option User.t) (date : option Date)
  : M (list ScheduleEntry) :=
  match staffMember, date with
  | Some u, Some d =>
      if negb (truthy (User.id u)) then ret []
      else
        let late := isLateShift u d in
        let shiftEnd := shiftEndOf late in
        st <- forEachJob (sortedJobs u d) (initialState u) ;;
        ret (schedule st ++ [endEntry late (endTimeOf (sortedJobs u d) st shiftEnd)])
  | _, _ => ret []
  end.

(** *** Week aggregator (lines 93-128) *)

(** [staff.filter((s) => s && s.role === "staff" && s.id)]. *)
Definition isStaff (s : option User.t) : option User.t :=
  match s with
  | Some u =>
      if String.eqb (User.role u) "staff" && truthy (User.id u) then Some u else None
  | None => None
  end.

(** [`${staffMember.id}`]. *)
Definition idText (u : User.t) : string :=
  match User.id u with Some s => s | None => "undefined" end.

(** [`${id}-${format(day, "yyyy-MM-dd")}`]. *)
Definition scheduleKey (idt : string) (day : Date) : result string :=
  match format_date day with
  | Ok d => Ok (idt +:+ "-" +:+ d)
  | Throw e => Throw e
  end.

(** The [try]/[catch] of lines 117-123 for one staff member and day.
    Both blocks compute the key; the assignment of the [try] block is its
    last step, so a throwing block leaves [newSchedules] as it was. *)
Definition fillCell (u : User.t) (day : Date)
    (newSchedules : gmap string (list ScheduleEntry))
  : M (gmap string (list ScheduleEntry)) :=
  try_catch
    (key <- lift (scheduleKey (idText u) day) ;;
     entries <- generateDaySchedule (Some u) (Some day) ;;
     ret (<[key := entries]> newSchedules))
    (key <- lift (scheduleKey (idText u) day) ;;
     ret (<[key := []]> newSchedules)).

(** [weekDays.forEach]; a [Date] object is truthy, so the [!day] guard
    never fires. *)
Fixpoint forEachDay (u : User.t) (days : list Date)
    (newSchedules : gmap string (list ScheduleEntry))
  : M (gmap string (list ScheduleEntry)) :=
  match days with
  | [] => ret newSchedules
  | day :: days' => m <- fillCell u day newSchedules ;; forEachDay u days' m
  end.

(** The outer [forEach]; the filter has already checked [staffMember.id]. *)
Fixpoint forEachStaff (us : list User.t)
    (newSchedules : gmap string (list ScheduleEntry))
  : M (gmap string (list ScheduleEntry)) :=
  match us with
  | [] => ret newSchedules
  | u :: us' => m <- forEachDay u weekDays newSchedules ;; forEachStaff us' m
  end.

(** The map handed to [setSchedules]. *)
Definition generateSchedules : M (gmap string (list ScheduleEntry)) :=
  forEachStaff (filter_present isStaff staff) ∅.

(** *** CSV export (lines 303-345) *)

Definition csvHeaders : list string :=
  ["Date"; "Time"; "Type"; "Location"; "Description"; "Duration (min)"]%string.

(** [`"${v}"`]; an [undefined] value prints as [undefined]. *)
Definition quoted (v : option string) : string :=
  dquote +:+ default "undefined"%string v +:+ dquote.

(** [entry.estimatedDuration || 0]. *)
Definition durationOrZero (e : ScheduleEntry) : Z :=
  match estimatedDuration e with
  | Some d => if d =? 0 then 0 else d
  | None => 0
  end.

Definition csvRow (dateText : string) (e : ScheduleEntry) : string :=
  join ","
    [ dateText; time e; type_name (type e); quoted (location e);
      quoted (Some (description e)); Z_toString (durationOrZero e) ].

(** The rows pushed for one day: [schedules[key] || []] mapped to rows. *)
Definition dayRows (schedules : gmap string (list ScheduleEntry))
    (staffId : string) (day : Date) : result (list string) :=
  match format_date day with
  | Ok d => Ok (map (csvRow d) (default [] (schedules !! (staffId +:+ "-" +:+ d))))
  | Throw e => Throw e
  end.

Fixpoint weekRows (schedules : gmap string (list ScheduleEntry))
    (staffId : string) (days : list Date) (rows : list string)
  : result (list string) :=
  match days with
  | [] => Ok rows
  | day :: days' =>
      match dayRows schedules staffId day with
      | Ok r => weekRows schedules staffId days' (rows ++ r)
      | Throw e => Throw e
      end
  end.

(** [staff.find((s) => s && s.id === staffId)]. *)
Definition findStaff (staffId : string) : option User.t :=
  match find (fun s => match s with
                       | Some u => bool_decide (User.id u = Some staffId)
                       | None => false
                       end) staff with
  | Some s => s
  | None => None
  end.

(** [exportScheduleCSV]: the text [csvContent] put into the download, or
    nothing when no staff member has the id. *)
Definition exportScheduleCSV (schedules : gmap string (list ScheduleEntry))
    (staffId : string) : result (option string) :=
  match findStaff staffId with
  | None => Ok None
  | Some _ =>
      match weekRows schedules staffId weekDays [join "," csvHeaders] with
      | Ok rows => Ok (Some (join (String LF EmptyString) rows))
      | Throw e => Throw e
      end
  end.

(** *** Shape of the entries emitted for the jobs of a day *)

(** [Visits js es]: [es] is, for each job of [js] in order, a travel
    entry of 15 to 60 minutes placed before the job's due time and then
    the entry of the job at its due time. *)
Inductive Visits : list Job.t -> list ScheduleEntry -> Prop :=
| Visits_nil : Visits [] []
| Visits_cons j js jobTime travelTime es :
    format_HHmm (parseISO (default EmptyString (Job.dueDate j))) = Ok jobTime ->
    15 <= travelTime <= 60 ->
    Visits js es ->
    Visits (j :: js) (travelEntry j jobTime travelTime :: jobEntry j jobTime :: es).

(** The time value [new Date(job.dueDate).getTime()] the comparator reads. *)
Definition dueStamp (j : Job.t) : number :=
  getTime (newDate (default EmptyString (Job.dueDate j))).

(** [a] is due no later than [b]. *)
Definition dueBefore (a b : Job.t) : Prop :=
  exists x y, dueStamp a = Some x /\ dueStamp b = Some y /\ x <= y.

(** A job with a due date that [new Date] reads as a valid time. *)
Definition stamped (j : Job.t) : Prop :=
  truthy (Job.dueDate j) = true /\ exists t, dueStamp j = Some t.

(** A staff member the builder accepts: a non-empty id, and a city that
    does not name a member inherited from [Object.prototype]. *)
Definition validStaff (u : User.t) : bool :=
  truthy (User.id u)
  && match baseLocationData u with Own _ => true | _ => false end.

Definition isValidDate (d : Date) : bool :=
  match d with TimeValue _ => true | InvalidDate => false end.

(** What the [try]/[catch] stores for a cell: the built entries, or the
    empty list when the builder threw. *)
Definition cellEntries (r : result (list ScheduleEntry)) : list ScheduleEntry :=
  match r with Ok es => es | Throw _ => [] end.

(** The entries the schedule map holds for a staff id and a day. *)
Definition entriesOn (schedules : gmap string (list ScheduleEntry))
    (staffId : string) (t : Z) : list ScheduleEntry :=
  default [] (schedules !! (staffId +:+ "-" +:+ format_yMd t)).

(** The text fields of an entry are free of line feeds. *)
Definition singleLine (e : ScheduleEntry) : bool :=
  negb (has_char LF (time e))
  && negb (has_char LF (default EmptyString (location e)))
  && negb (has_char LF (description e)).

(** No text written for the week of a staff member holds a line feed:
    neither the date of a day nor a text field of an entry. *)
Definition singleLineWeek (schedules : gmap string (list ScheduleEntry))
    (staffId : string) (ts : list Z) : bool :=
  forallb (fun t => negb (has_char LF (format_yMd t))
                    && forallb singleLine (entriesOn schedules staffId t)) ts.

(** The rows of the week, day by day, each day in the order of its list. *)
Definition expectedRows (schedules : gmap string (list ScheduleEntry))
    (staffId : string) (ts : list Z) : list string :=
  flat_map (fun t => map (csvRow (format_yMd t)) (entriesOn schedules staffId t)) ts.

(** The number of entries of the week. *)
Definition entryCount (schedules : gmap string (list ScheduleEntry))
    (staffId : string) (ts : list Z) : nat :=
  list_sum (map (fun t => length (entriesOn schedules staffId t)) ts).

(** *** Presentation (lines 347-355 and 455-656) *)

(** The icon of [getShiftTypeIcon]. *)
Inductive ShiftIcon := Moon | Sun.

(** Lines 347-355. *)
Definition getShiftTypeIcon (u : User.t) (date : Date) : ShiftIcon :=
  if isLateShift u date then Moon else Sun.

(** [entry.type === "job"]. *)
Definition isJobEntry (e : ScheduleEntry) : bool :=
  match type e with job => true | _ => false end.

(** Lines 483-485: [daySchedule.filter((entry) => entry.type === "job").length]. *)
Definition jobCount (daySchedule : list ScheduleEntry) : nat :=
  length (List.filter isJobEntry daySchedule).

(** Line 505: [daySchedule.slice(0, 3)]. *)
Definition shownEntries (daySchedule : list ScheduleEntry) : list ScheduleEntry :=
  firstn 3 daySchedule.

(** Lines 519-523: the label [`+${daySchedule.length - 3} more entries`],
    rendered when the list is longer than three. *)
Definition moreEntriesLabel (daySchedule : list ScheduleEntry) : option string :=
  if (3 <? length daySchedule)%nat
  then Some ("+" +:+ Z_toString (Z.of_nat (length daySchedule) - 3) +:+ " more entries")
  else None.

(** Line 456: the filter of the schedule cards,
    [s && s.role === "staff" && s.id && s.name]. *)
Definition hasCard (s : option User.t) : option User.t :=
  match s with
  | Some u =>
      if String.eqb (User.role u) "staff" && truthy (User.id u) && truthy (User.name u)
      then Some u else None
  | None => None
  end.

Definition scheduleCards : list User.t := filter_present hasCard staff.

(** Lines 550-553 and 606-609: the filter of a team list,
    [s && s.role === "staff" && s.location?.city === c && s.id && s.name]. *)
Definition inTeam (c : string) (s : option User.t) : option User.t :=
  match s with
  | Some u =>
      if String.eqb (User.role u) "staff" && bool_decide (User.city u = Some c)
         && truthy (User.id u) && truthy (User.name u)
      then Some u else None
  | None => None
  end.

Definition team (c : string) : list User.t := filter_present (inTeam c) staff.

(** Line 465: the city badge of a card, [location?.city || "Johannesburg"]. *)
Definition cityBadge (u : User.t) : string := or_else (User.city u) "Johannesburg".

(** Lines 593-595: the shift badge of a team row. *)
Definition shiftBadge (u : User.t) : string :=
  match workingLateShift u with
  | Some true => "Late Shift"
  | _ => "Normal Shift"
  end.

(** The key of the cell of a staff member and a day (lines 118 and 481). *)
Definition cellKey (u : User.t) (t : Z) : string :=
  idText u +:+ "-" +:+ format_yMd t.

(** The keys [generateSchedules] writes: every staff member it keeps,
    on every day of the week. *)
Definition weekKeys : list string :=
  flat_map (fun u => map (cellKey u) weekTimes) (filter_present isStaff staff).

(** A day list as the builder leaves it: the base entry of a staff
    member first and an end entry last. *)
Definition wellBracketed (es : list ScheduleEntry) : Prop :=
  exists (u : User.t) (mid : list ScheduleEntry) (late : bool) (endTime : string),
    es = baseEntry u :: mid ++ [endEntry late endTime].

(** The hour and minute of a time value on the local clock. *)
Definition localHour (t : Z) : Z := (localTime t / 3600000) mod 24.
Definition localMinute (t : Z) : Z := (localTime t / 60000) mod 60.

(** The number of milliseconds of a week. *)
Definition week_ms : Z := 7 * 24 * 60 * 60000.

(** The distance [estimateTravelTime] measures, in degrees. *)
Definition degreeDistance (from to : Coordinates) : R :=
  sqrt ((lat to - lat from) ^ 2 + (lng to - lng from) ^ 2)%R.

(* ------------------------------------------------------------------- *)
(** *** Strings and clock times *)
(* ------------------------------------------------------------------- *)

(** Forget the parts of the environment a statement does not mention,
    so that the arithmetic procedures do not pick them up. *)
Ltac forget_env :=
  try clear addDays; try clear startOfWeek; try clear selectedWeek;
  try clear staff; try clear jobs; try clear random;
  try clear format_yMd; try clear jan1_2024; try clear newDate;
  try clear parseISO; try clear tzOffset.

Lemma append_cons_nonempty (a b : string) (c : ascii) :
  String.eqb (a +:+ String c b) EmptyString = false.
Proof. destruct a; reflexivity. Qed.

Lemma formatTime_nonempty (h m : number) :
  String.eqb (formatTime h m) EmptyString = false.
Proof. unfold formatTime. apply append_cons_nonempty. Qed.

(** Checked on each of the 24 * 60 times of a day. *)
Lemma reads_back_all :
  forallb (fun h => forallb (reads_back h) (seq 0 60)) (seq 0 24) = true.
Proof. vm_compute. reflexivity. Qed.

Lemma parseTime_clock (h m : Z) :
  0 <= h <= 23 -> 0 <= m <= 59 -> parseTime (clock h m) = (Some h, Some m).
Proof.
  intros Hh Hm.
  pose proof reads_back_all as H.
  rewrite forallb_forall in H.
  specialize (H (Z.to_nat h)).
  rewrite forallb_forall in H.
  assert (Hin : In (Z.to_nat h) (seq 0 24)) by (apply in_seq; lia).
  specialize (H Hin (Z.to_nat m)).
  assert (Hin' : In (Z.to_nat m) (seq 0 60)) by (apply in_seq; lia).
  specialize (H Hin').
  unfold reads_back in H.
  rewrite !Z2Nat.id in H by lia.
  destruct (parseTime (clock h m)) as [[a|] [b|]]; try discriminate.
  apply andb_true_iff in H as [Ha Hb].
  apply Z.eqb_eq in Ha, Hb. subst. reflexivity.
Qed.

Lemma addMinutes_clock (h m minutes : Z) :
  0 <= h <= 23 -> 0 <= m <= 59 -> 0 <= minutes ->
  addMinutes (clock h m) minutes = formatMinutes ((h * 60 + m + minutes) mod 1440).
Proof.
  forget_env.
  intros Hh Hm Hmin.
  unfold addMinutes. rewrite parseTime_clock by assumption.
  cbn [add sub mul lift2 floor_div rem].
  set (t := h * 60 + m + minutes).
  assert (Ht : 0 <= t) by (unfold t; lia).
  unfold formatMinutes, clock.
  rewrite !Z.rem_mod_nonneg by (try apply Z.div_pos; lia).
  f_equal; f_equal; Z.to_euclidean_division_equations; lia.
Qed.

Lemma subtractMinutes_clock (h m minutes : Z) :
  0 <= h <= 23 -> 0 <= m <= 59 -> 0 <= minutes ->
  subtractMinutes (clock h m) minutes = formatMinutes (Z.max 0 (h * 60 + m - minutes)).
Proof.
  intros Hh Hm Hmin.
  unfold subtractMinutes. rewrite parseTime_clock by assumption.
  cbn [add sub mul lift2 floor_div rem max_lit].
  set (t := h * 60 + m - minutes).
  unfold formatMinutes, clock.
  destruct (Z_lt_le_dec t 0) as [Hneg | Hpos].
  - rewrite (Z.max_l 0 t) by lia. cbn [Z.div Z.modulo].
    assert (t / 60 < 0) by (apply Z.div_lt_upper_bound; lia).
    pose proof (Z.rem_nonpos t 60 ltac:(lia) ltac:(lia)).
    rewrite !Z.max_l by lia. reflexivity.
  - rewrite (Z.max_r 0 t) by lia.
    rewrite Z.rem_mod_nonneg by lia.
    pose proof (Z.mod_pos_bound t 60 ltac:(lia)).
    assert (0 <= t / 60) by (apply Z.div_pos; lia).
    rewrite !Z.max_r by lia. reflexivity.
Qed.

(** C4.  On a well-formed [HH:MM] time and a non-negative number of
    minutes, [addMinutes] formats the sum modulo 1440 (it wraps past
    midnight) and [subtractMinutes] formats the difference raised to at
    least zero (it clamps at [00:00]); the two examples of the
    specification evaluate accordingly. *)
Theorem addMinutes_wraps_subtractMinutes_clamps (h m minutes : Z)
    (Hh : 0 <= h <= 23) (Hm : 0 <= m <= 59) (Hmin : 0 <= minutes) :
  addMinutes (clock h m) minutes
    = formatMinutes ((h * 60 + m + minutes) mod 1440)
  /\ subtractMinutes (clock h m) minutes
    = formatMinutes (Z.max 0 (h * 60 + m - minutes))
  /\ addMinutes "23:50" 20 = "00:10"%string
  /\ subtractMinutes "00:10" 30 = "00:00"%string.
Proof.
  split; [apply addMinutes_clock; assumption |].
  split; [apply subtractMinutes_clock; assumption |].
  split; reflexivity.
Qed.

(* ------------------------------------------------------------------- *)
(** *** Duration table *)
(* ------------------------------------------------------------------- *)

(** C3.  [getJobDuration] returns a positive integer on every input,
    the tabulated value on each of the six labels, and 60 on a missing
    category and on every string that is not one of the six labels. *)
Theorem getJobDuration_table :
  (forall c : option string, 0 < getJobDuration c)
  /\ getJobDuration (Some "Geyser Replacement"%string) = 180
  /\ getJobDuration (Some "Geyser Assessment"%string) = 60
  /\ getJobDuration (Some "Leak Detection"%string) = 120
  /\ getJobDuration (Some "Drain Blockage"%string) = 90
  /\ getJobDuration (Some "Camera Inspection"%string) = 75
  /\ getJobDuration (Some "Toilet/Shower"%string) = 90
  /\ getJobDuration None = 60
  /\ (forall s : string, In s knownCategories \/ getJobDuration (Some s) = 60).
Proof.
  forget_env.
  repeat split; try reflexivity.
  - intros [c |]; [| reflexivity]. unfold getJobDuration.
    repeat (destruct (String.eqb c _); [lia |]). lia.
  - intros s. unfold getJobDuration.
    repeat match goal with
           | |- context [String.eqb s ?l] =>
               destruct (String.eqb_spec s l) as [-> | _];
               [left; unfold knownCategories; simpl; tauto |]
           end.
    right. reflexivity.
Qed.

(* ------------------------------------------------------------------- *)
(** *** Travel-time estimator *)
(* ------------------------------------------------------------------- *)

Lemma Math_round_nearest (x : R) :
  (IZR (Math_round x) - / 2 <= x < IZR (Math_round x) + / 2)%R.
Proof.
  unfold Math_round, Int_part.
  destruct (archimed (x + / 2)) as [Hgt Hle].
  rewrite minus_IZR. simpl IZR. lra.
Qed.

Lemma estimateTravelTime_bounds (from to : Coordinates) :
  15 <= estimateTravelTime from to <= 60.
Proof. unfold estimateTravelTime. lia. Qed.

(** Points at least one degree apart are the full 60 minutes apart. *)
Lemma estimateTravelTime_far (from to : Coordinates) :
  (1 <= (lat to - lat from) ^ 2 + (lng to - lng from) ^ 2)%R ->
  estimateTravelTime from to = 60.
Proof.
  forget_env.
  intros H. unfold estimateTravelTime.
  set (s := ((lat to - lat from) ^ 2 + (lng to - lng from) ^ 2)%R) in *.
  assert (Hs : (1 <= sqrt s)%R).
  { rewrite <- sqrt_1. apply sqrt_le_1_alt. exact H. }
  pose proof (Math_round_nearest (sqrt s * 3000)) as [_ Hr].
  assert (Hlt : (IZR 2999 < IZR (Math_round (sqrt s * 3000)))%R) by lra.
  apply lt_IZR in Hlt. lia.
Qed.

(** C2.  [estimateTravelTime] is the degree-space Euclidean distance
    times 3000, rounded to the nearest integer and clamped to the
    interval from 15 to 60; the result lies between 15 and 60. *)
Theorem estimateTravelTime_clamped (from to : Coordinates) :
  let d := sqrt ((lat to - lat from) ^ 2 + (lng to - lng from) ^ 2)%R in
  estimateTravelTime from to = clamp 15 60 (Math_round (d * 3000)%R)
  /\ (IZR (Math_round (d * 3000)) - / 2 <= d * 3000
      < IZR (Math_round (d * 3000)) + / 2)%R
  /\ 15 <= estimateTravelTime from to <= 60.
Proof.
  intros d. split; [| split].
  - unfold estimateTravelTime, clamp. fold d.
    destruct (Z.ltb_spec (Math_round (d * 3000)) 15);
      destruct (Z.ltb_spec 60 (Math_round (d * 3000))); lia.
  - apply Math_round_nearest.
  - apply estimateTravelTime_bounds.
Qed.

(* ------------------------------------------------------------------- *)
(** *** Shift policy *)
(* ------------------------------------------------------------------- *)

(** C1 (amended).  With [workingLateShift] explicitly set to [b], the
    late-shift flag is [b || isLateShiftWeek(date)]: an explicit [true]
    gives a late shift on every date, the week parity being left
    unread, and an explicit [false] falls back to [isLateShiftWeek];
    the shift end is ["19:00"] when the flag is true and ["17:00"]
    when it is false. *)
Theorem explicit_late_shift_or_week_parity
    (u : User.t) (date : Date) (b : bool)
    (Hset : workingLateShift u = Some b) :
  isLateShift u date = b || isLateShiftWeek date
  /\ (if b then forall date' : Date, isLateShift u date' = true
      else isLateShift u date = isLateShiftWeek date)
  /\ shiftEndOf (isLateShift u date)
     = (if b || isLateShiftWeek date then "19:00" else "17:00")%string.
Proof.
  unfold isLateShift. rewrite Hset.
  destruct b; cbn [orb]; repeat split; try reflexivity.
Qed.

(* ------------------------------------------------------------------- *)
(** *** Sorting the jobs of a day *)
(* ------------------------------------------------------------------- *)

Lemma sort_insert_perm {A} (cmp : A -> A -> number) (x : A) (l : list A) :
  Permutation (sort_insert cmp x l) (x :: l).
Proof.
  induction l as [| y l IH]; cbn [sort_insert].
  - reflexivity.
  - destruct (gt0 (cmp x y)).
    + rewrite IH. apply perm_swap.
    + reflexivity.
Qed.

Lemma Array_sort_perm {A} (cmp : A -> A -> number) (l : list A) :
  Permutation (Array_sort cmp l) l.
Proof.
  induction l as [| x l IH]; cbn [Array_sort fold_right].
  - reflexivity.
  - fold (Array_sort cmp l). rewrite sort_insert_perm. rewrite IH. reflexivity.
Qed.

Lemma Array_sort_Forall {A} (P : A -> Prop) (cmp : A -> A -> number) (l : list A) :
  Forall P l -> Forall P (Array_sort cmp l).
Proof.
  intros H. eapply Permutation_Forall; [| exact H].
  symmetry. apply Array_sort_perm.
Qed.

Lemma dayJobs_isDayJob (u : User.t) (d : Date) :
  Forall (fun j => isDayJob u d j = true) (dayJobs u d).
Proof.
  unfold dayJobs. induction jobs as [| [j |] js IH]; cbn [filter_present].
  - constructor.
  - destruct (isDayJob u d j) eqn:E.
    + constructor; assumption.
    + exact IH.
  - exact IH.
Qed.

Lemma compareJobs_stamps (a b : Job.t) (x y : Z) :
  dueStamp a = Some x -> dueStamp b = Some y ->
  gt0 (compareJobs a b) = (if truthy (Job.dueDate a) && truthy (Job.dueDate b)
                           then y <? x else false).
Proof.
  unfold dueStamp, compareJobs. intros Ha Hb.
  destruct (truthy (Job.dueDate a)), (truthy (Job.dueDate b)); cbn; try reflexivity.
  rewrite Ha, Hb. cbn. destruct (Z.ltb_spec 0 (x - y)), (Z.ltb_spec y x); lia || reflexivity.
Qed.

Lemma dueBefore_trans (a b c : Job.t) :
  dueBefore a b -> dueBefore b c -> dueBefore a c.
Proof.
  intros (x & y & Hx & Hy & Hxy) (y' & z & Hy' & Hz & Hyz).
  rewrite Hy in Hy'. injection Hy' as <-.
  exists x, z. repeat split; try assumption. lia.
Qed.

Lemma sort_insert_sorted (x : Job.t) (l : list Job.t) :
  stamped x -> Forall stamped l ->
  StronglySorted dueBefore l ->
  StronglySorted dueBefore (sort_insert compareJobs x l).
Proof.
  intros [Hx [tx Htx]] Hl Hs.
  induction l as [| y l IH]; cbn [sort_insert].
  - repeat constructor.
  - inversion Hl as [| ? ? [Hy [ty Hty]] Hl']; subst.
    inversion Hs as [| ? ? Hs' Hall]; subst.
    rewrite (compareJobs_stamps x y tx ty Htx Hty), Hx, Hy. cbn [andb].
    destruct (Z.ltb_spec ty tx) as [Hlt | Hge].
    + constructor; [apply IH; assumption |].
      eapply Permutation_Forall; [symmetry; apply sort_insert_perm |].
      constructor; [| assumption].
      exists ty, tx. repeat split; try assumption. lia.
    + assert (Hxy : dueBefore x y) by (exists tx, ty; repeat split; assumption).
      constructor; [assumption |].
      constructor; [assumption |].
      eapply Forall_impl; [exact Hall |].
      intros z Hz. eapply dueBefore_trans; eassumption.
Qed.

Lemma Array_sort_sorted (l : list Job.t) :
  Forall stamped l -> StronglySorted dueBefore (Array_sort compareJobs l).
Proof.
  induction l as [| x l IH]; intros H; cbn [Array_sort fold_right].
  - constructor.
  - inversion H; subst. fold (Array_sort compareJobs l).
    apply sort_insert_sorted; [assumption | | apply IH; assumption].
    apply Array_sort_Forall. assumption.
Qed.

(* ------------------------------------------------------------------- *)
(** *** The loop over the jobs of a day *)
(* ------------------------------------------------------------------- *)

Lemma isDayJob_due (u : User.t) (d : Date) (j : Job.t) :
  isDayJob u d j = true ->
  truthy (Job.dueDate j) = true
  /\ exists t, parseISO (default EmptyString (Job.dueDate j)) = TimeValue t.
Proof.
  unfold isDayJob. intros H.
  apply andb_true_iff in H as [H Hday]. apply andb_true_iff in H as [_ Hdue].
  split; [assumption |].
  destruct (parseISO (default EmptyString (Job.dueDate j))) as [t |]; [eauto |].
  discriminate Hday.
Qed.

Lemma visitJob_skip (j : Job.t) (st : LoopState) (n : nat) :
  hasId j = false -> visitJob j st n = (Ok st, n).
Proof. unfold hasId, visitJob. intros ->. reflexivity. Qed.

(** One visited job: the travel entry, the job entry, and the state the
    callback leaves behind, after four random draws. *)
Lemma visitJob_run (j : Job.t) (st : LoopState) (n : nat) (c : Coordinates) (t : Z) :
  hasId j = true -> truthy (Job.dueDate j) = true ->
  parseISO (default EmptyString (Job.dueDate j)) = TimeValue t ->
  currentLocation st = Some c ->
  let jobTime := clock ((localTime t / 3600000) mod 24) ((localTime t / 60000) mod 60) in
  let travelTime := estimateTravelTime c (jitterAt n) in
  visitJob j st n
  = (Ok {| schedule := schedule st
                       ++ [travelEntry j jobTime travelTime; jobEntry j jobTime];
           currentTime :=
             addMinutes jobTime
               (getJobDuration (Some (or_else (Job.category j) "Other")));
           currentLocation := Some (jitterAt (n + 2)) |},
     (n + 4)%nat).
Proof.
  intros Hid Hdue Ht Hloc jobTime travelTime.
  unfold hasId in Hid.
  unfold visitJob, jobTimeOf. rewrite Hid, Hdue, Ht, Hloc.
  cbn [negb format_HHmm]. fold jobTime.
  unfold bind, lift, ret, jitter, bind, Math_random, callEstimateTravelTime, ret.
  cbn beta iota. fold (jitterAt n). fold travelTime.
  pose proof (estimateTravelTime_bounds c (jitterAt n)) as Hb. fold travelTime in Hb.
  assert (Hpos : (0 <? travelTime) = true) by (apply Z.ltb_lt; lia).
  assert (Hne : String.eqb jobTime EmptyString = false)
    by apply formatTime_nonempty.
  rewrite Hpos, Hne. cbn [negb andb].
  rewrite <- app_assoc. cbn [app].
  replace (n + 2)%nat with (S (S n)) by lia.
  replace (n + 4)%nat with (S (S (S (S n)))) by lia.
  reflexivity.
Qed.

Lemma visitJob_emit (u : User.t) (d : Date) (j : Job.t) (st : LoopState)
    (n : nat) (c : Coordinates) :
  hasId j = true -> isDayJob u d j = true -> currentLocation st = Some c ->
  exists jobTime travelTime next,
    format_HHmm (parseISO (default EmptyString (Job.dueDate j))) = Ok jobTime
    /\ 15 <= travelTime <= 60
    /\ visitJob j st n
       = (Ok {| schedule := schedule st
                            ++ [travelEntry j jobTime travelTime; jobEntry j jobTime];
                currentTime :=
                  addMinutes jobTime
                    (getJobDuration (Some (or_else (Job.category j) "Other")));
                currentLocation := Some next |},
          (n + 4)%nat).
Proof.
  intros Hid Hday Hloc.
  destruct (isDayJob_due u d j Hday) as [Hdue [t Ht]].
  eexists _, _, _. split; [rewrite Ht; reflexivity |].
  split; [apply (estimateTravelTime_bounds c (jitterAt n)) |].
  apply (visitJob_run j st n c t Hid Hdue Ht Hloc).
Qed.

Lemma forEachJob_shape (u : User.t) (d : Date) (js : list Job.t) :
  Forall (fun j => isDayJob u d j = true) js ->
  forall (st : LoopState) (n : nat) (c : Coordinates),
    currentLocation st = Some c ->
    exists es st' n',
      forEachJob js st n = (Ok st', n')
      /\ schedule st' = schedule st ++ es
      /\ Visits (List.filter hasId js) es
      /\ (js = [] -> st' = st).
Proof.
  induction 1 as [| j js Hj Hjs IH]; intros st n c Hloc.
  - exists [], st, n. cbn. rewrite app_nil_r. repeat split; constructor.
  - cbn [forEachJob List.filter]. unfold bind.
    destruct (hasId j) eqn:Hid.
    + destruct (visitJob_emit u d j st n c Hid Hj Hloc)
        as (jobTime & travelTime & next & Hfmt & Hb & Hv).
      rewrite Hv.
      match goal with
      | |- context [forEachJob js ?s ?m] =>
          destruct (IH s m next eq_refl) as (es & st' & n' & Hrun & Hsch & Hvis & _)
      end.
      exists (travelEntry j jobTime travelTime :: jobEntry j jobTime :: es), st', n'.
      split; [exact Hrun |].
      split; [rewrite Hsch; cbn [schedule]; rewrite <- app_assoc; reflexivity |].
      split; [| discriminate].
      econstructor; eassumption.
    + rewrite (visitJob_skip j st n Hid).
      destruct (IH st n c Hloc) as (es & st' & n' & Hrun & Hsch & Hvis & _).
      exists es, st', n'. split; [exact Hrun |]. split; [exact Hsch |].
      split; [| discriminate].
      exact Hvis.
Qed.

(* ------------------------------------------------------------------- *)
(** *** The day builder *)
(* ------------------------------------------------------------------- *)

Lemma validStaff_inv (u : User.t) :
  validStaff u = true ->
  truthy (User.id u) = true /\ exists b, baseLocationData u = Own b.
Proof.
  unfold validStaff. intros H. apply andb_true_iff in H as [Hid Hb].
  split; [assumption |].
  destruct (baseLocationData u) as [b | |]; try discriminate. eauto.
Qed.

Lemma sortedJobs_isDayJob (u : User.t) (d : Date) :
  Forall (fun j => isDayJob u d j = true) (sortedJobs u d).
Proof. unfold sortedJobs. apply Array_sort_Forall, dayJobs_isDayJob. Qed.

Lemma endTimeOf_running (js : list Job.t) (st0 st : LoopState) (shiftEnd : string) :
  currentTime st0 = "05:00"%string -> (js = [] -> st = st0) ->
  endTimeOf js st shiftEnd
  = if gt0 (compareTime (currentTime st) shiftEnd) then currentTime st else shiftEnd.
Proof.
  intros H0 Hnil. unfold endTimeOf.
  destruct js as [| j js]; cbn [length].
  - rewrite (Hnil eq_refl), H0. reflexivity.
  - reflexivity.
Qed.

Lemma end_not_before_shiftEnd (late : bool) (cur : string) :
  exists z,
    compareTime (if gt0 (compareTime cur (shiftEndOf late)) then cur else shiftEndOf late)
                (shiftEndOf late) = Some z
    /\ 0 <= z.
Proof.
  destruct (gt0 (compareTime cur (shiftEndOf late))) eqn:E.
  - unfold gt0 in E. destruct (compareTime cur (shiftEndOf late)) as [z |];
      [| discriminate].
    exists z. split; [reflexivity |]. apply Z.ltb_lt in E. lia.
  - exists 0. split; [| lia]. destruct late; reflexivity.
Qed.

(** The run of the builder on an accepted staff member. *)
Lemma generateDaySchedule_run (u : User.t) (d : Date) (n : nat) :
  validStaff u = true ->
  exists es st n',
    forEachJob (sortedJobs u d) (initialState u) n = (Ok st, n')
    /\ schedule st = baseEntry u :: es
    /\ Visits (List.filter hasId (sortedJobs u d)) es
    /\ generateDaySchedule (Some u) (Some d) n
       = (Ok (baseEntry u :: es
              ++ [endEntry (isLateShift u d)
                    (if gt0 (compareTime (currentTime st) (shiftEndOf (isLateShift u d)))
                     then currentTime st else shiftEndOf (isLateShift u d))]),
          n').
Proof.
  intros Hv. destruct (validStaff_inv u Hv) as [Hid [b Hb]].
  destruct (forEachJob_shape u d (sortedJobs u d) (sortedJobs_isDayJob u d)
              (initialState u) n (base_coordinates b))
    as (es & st & n' & Hrun & Hsch & Hvis & Hnil).
  { unfold initialState. cbn [currentLocation]. rewrite Hb. reflexivity. }
  exists es, st, n'. split; [exact Hrun |]. split; [exact Hsch |].
  split; [exact Hvis |].
  unfold generateDaySchedule. rewrite Hid. cbn [negb].
  unfold bind. rewrite Hrun. unfold ret.
  rewrite (endTimeOf_running _ (initialState u) st _ eq_refl Hnil).
  rewrite Hsch. reflexivity.
Qed.

(** C5.  For an accepted staff member, any date, job list and random
    values, the builder returns a list whose last entry is the [end]
    entry; its time is the running current time when [compareTime]
    ranks that strictly after the shift end, and the shift end
    otherwise, so [compareTime] never ranks it before the shift end. *)
Theorem end_time_floor (u : User.t) (d : Date) (n : nat)
    (Hvalid : validStaff u = true) :
  exists (st : LoopState) (n' : nat) (endTime : string),
    forEachJob (sortedJobs u d) (initialState u) n = (Ok st, n')
    /\ generateDaySchedule (Some u) (Some d) n
       = (Ok (schedule st ++ [endEntry (isLateShift u d) endTime]), n')
    /\ type (endEntry (isLateShift u d) endTime) = end_
    /\ time (endEntry (isLateShift u d) endTime) = endTime
    /\ endTime
       = (if gt0 (compareTime (currentTime st) (shiftEndOf (isLateShift u d)))
          then currentTime st else shiftEndOf (isLateShift u d))
    /\ exists z, compareTime endTime (shiftEndOf (isLateShift u d)) = Some z /\ 0 <= z.
Proof.
  destruct (generateDaySchedule_run u d n Hvalid)
    as (es & st & n' & Hrun & Hsch & _ & Hgen).
  exists st, n', (if gt0 (compareTime (currentTime st) (shiftEndOf (isLateShift u d)))
                  then currentTime st else shiftEndOf (isLateShift u d)).
  split; [exact Hrun |].
  split; [rewrite Hsch; exact Hgen |].
  repeat split. apply end_not_before_shiftEnd.
Qed.

Lemma dayJobs_none (u : User.t) (d : Date) :
  (forall j, In (Some j) jobs ->
             ~ (Job.assignedTo j = User.id u
                /\ exists s, Job.dueDate j = Some s /\ isSameDay (parseISO s) d = true)) ->
  dayJobs u d = [].
Proof.
  unfold dayJobs. induction jobs as [| [j |] js IH]; intros H; cbn [filter_present].
  - reflexivity.
  - destruct (isDayJob u d j) eqn:E.
    + exfalso. apply (H j (or_introl eq_refl)).
      unfold isDayJob in E.
      apply andb_true_iff in E as [E Hday]. apply andb_true_iff in E as [Ha Hdue].
      apply bool_decide_eq_true in Ha. split; [exact Ha |].
      destruct (Job.dueDate j) as [s |]; [| discriminate Hdue].
      exists s. split; [reflexivity | exact Hday].
    + apply IH. intros j' Hin. apply H. right. exact Hin.
  - apply IH. intros j' Hin. apply H. right. exact Hin.
Qed.

(** C6.  When no job of the list is both assigned to the staff member
    and due on the date, the builder returns exactly two entries: the
    [base] entry at ["05:00"] and then the [end] entry at the shift
    end, which [compareTime] ranks after ["05:00"]. *)
Theorem no_matching_job_two_entries (u : User.t) (d : Date) (n : nat)
    (Hid : truthy (User.id u) = true)
    (Hnone : forall j, In (Some j) jobs ->
               ~ (Job.assignedTo j = User.id u
                  /\ exists s, Job.dueDate j = Some s
                               /\ isSameDay (parseISO s) d = true)) :
  generateDaySchedule (Some u) (Some d) n
    = (Ok [baseEntry u; endEntry (isLateShift u d) (shiftEndOf (isLateShift u d))], n)
  /\ type (baseEntry u) = base
  /\ time (baseEntry u) = "05:00"%string
  /\ type (endEntry (isLateShift u d) (shiftEndOf (isLateShift u d))) = end_
  /\ time (endEntry (isLateShift u d) (shiftEndOf (isLateShift u d)))
     = shiftEndOf (isLateShift u d)
  /\ (exists z, compareTime "05:00" (shiftEndOf (isLateShift u d)) = Some z /\ z < 0).
Proof.
  split;
    [| repeat split; destruct (isLateShift u d);
       try reflexivity; eexists; split; reflexivity].
  unfold generateDaySchedule. rewrite Hid. cbn [negb].
  unfold sortedJobs. rewrite (dayJobs_none u d Hnone).
  cbn [Array_sort fold_right forEachJob]. unfold bind, ret.
  unfold endTimeOf. cbn [length initialState schedule app].
  destruct (isLateShift u d); reflexivity.
Qed.

Lemma generateDaySchedule_ignores_shift_times
    (start finish : option string) (u : User.t) (date : option Date) (n : nat) :
  generateDaySchedule (Some (withShiftTimes start finish u)) date n
  = generateDaySchedule (Some u) date n.
Proof. destruct u as [i nm r c [[w s f] |]]; reflexivity. Qed.

Lemma filter_all {A} (p : A -> bool) (l : list A) :
  Forall (fun x => p x = true) l -> List.filter p l = l.
Proof.
  induction 1 as [| x l Hx _ IH]; cbn [List.filter].
  - reflexivity.
  - rewrite Hx, IH. reflexivity.
Qed.

Lemma Visits_nth (js : list Job.t) (es : list ScheduleEntry) :
  Visits js es ->
  forall (k : nat) (j : Job.t),
    nth_error js k = Some j ->
    exists jobTime travelTime,
      format_HHmm (parseISO (default EmptyString (Job.dueDate j))) = Ok jobTime
      /\ 15 <= travelTime <= 60
      /\ nth_error es (2 * k) = Some (travelEntry j jobTime travelTime)
      /\ nth_error es (2 * k + 1) = Some (jobEntry j jobTime).
Proof.
  induction 1 as [| j0 js jobTime travelTime es Hfmt Hb Hvis IH]; intros k j Hk.
  - destruct k; discriminate Hk.
  - destruct k as [| k]; cbn [nth_error] in Hk.
    + injection Hk as <-. exists jobTime, travelTime.
      split; [exact Hfmt |]. split; [exact Hb |]. split; reflexivity.
    + destruct (IH k j Hk) as (jt & tt & H1 & H2 & H3 & H4).
      exists jt, tt. split; [exact H1 |]. split; [exact H2 |].
      replace (2 * S k)%nat with (S (S (2 * k))) by lia.
      replace (S (S (2 * k)) + 1)%nat with (S (S (2 * k + 1))) by lia.
      cbn [nth_error]. split; assumption.
Qed.

Lemma Visits_types (js : list Job.t) (es : list ScheduleEntry) :
  Visits js es -> List.Forall (fun e => type e = travel \/ type e = job) es.
Proof.
  induction 1 as [| j js jobTime travelTime es _ _ _ IH].
  - constructor.
  - constructor; [left; reflexivity |]. constructor; [right; reflexivity | exact IH].
Qed.

Lemma Visits_even_length (js : list Job.t) (es : list ScheduleEntry) :
  Visits js es -> length es = (2 * length js)%nat.
Proof.
  induction 1 as [| j js jobTime travelTime es _ _ _ IH]; cbn [length]; lia.
Qed.

Lemma isDayJob_spec (u : User.t) (d : Date) (j : Job.t) :
  isDayJob u d j = true
  <-> Job.assignedTo j = User.id u
      /\ exists s, Job.dueDate j = Some s /\ s <> EmptyString
                   /\ isSameDay (parseISO s) d = true.
Proof.
  unfold isDayJob. rewrite !andb_true_iff, bool_decide_eq_true.
  destruct (Job.dueDate j) as [s |]; cbn [truthy default from_option Datatypes.id].
  - rewrite negb_true_iff. split.
    + intros [[Ha Hs] Hd]. split; [exact Ha |]. exists s.
      split; [reflexivity |]. split; [| exact Hd].
      apply String.eqb_neq. exact Hs.
    + intros [Ha (s' & E & Hs & Hd)]. injection E as <-.
      split; [split; [exact Ha |] | exact Hd].
      apply String.eqb_neq. exact Hs.
  - split.
    + intros [[_ H] _]. discriminate H.
    + intros [_ (s & E & _)]. discriminate E.
Qed.

Lemma dayJobs_spec (u : User.t) (d : Date) (j : Job.t) :
  In j (dayJobs u d) <-> In (Some j) jobs /\ isDayJob u d j = true.
Proof.
  unfold dayJobs. induction jobs as [| [x |] js IH]; cbn [filter_present In].
  - split; [intros [] | intros [[] _]].
  - destruct (isDayJob u d x) eqn:E; cbn [In]; rewrite IH; split.
    + intros [<- | [H1 H2]]; [split; [left; reflexivity | exact E] |].
      split; [right; exact H1 | exact H2].
    + intros [[H | H] H2]; [left; congruence | right; split; assumption].
    + intros [H1 H2]. split; [right; exact H1 | exact H2].
    + intros [[H | H] H2]; [| split; assumption].
      injection H as ->. congruence.
  - rewrite IH. split.
    + intros [H1 H2]. split; [right; exact H1 | exact H2].
    + intros [[H | H] H2]; [discriminate H | split; assumption].
Qed.

Lemma dayJobs_sublist (u : User.t) (d : Date) :
  sublist (map Some (dayJobs u d)) jobs.
Proof.
  unfold dayJobs. induction jobs as [| [j |] js IH]; cbn [filter_present].
  - constructor.
  - destruct (isDayJob u d j); cbn [map];
      [apply sublist_skip | apply sublist_cons]; exact IH.
  - apply sublist_cons. exact IH.
Qed.

Lemma sortedJobs_sorted (u : User.t) (d : Date) :
  List.Forall (fun j => exists t, dueStamp j = Some t) (dayJobs u d) ->
  StronglySorted dueBefore (sortedJobs u d).
Proof.
  intros Hjobs. unfold sortedJobs. apply Array_sort_sorted.
  pose proof (dayJobs_isDayJob u d) as Hday.
  rewrite List.Forall_forall in Hjobs, Hday. apply List.Forall_forall.
  intros j Hin. split.
  - apply (isDayJob_due u d j (Hday j Hin)).
  - apply (Hjobs j Hin).
Qed.

(** C7.  For an accepted staff member whose jobs of the day each carry
    an id and a readable due date, the builder returns, in this order:
    the [base] entry at ["05:00"] with the address and coordinates of
    the resolved base location; for each job of the day, in ascending
    order of due time, a travel entry and then the job's entry at its
    due time; and one [end] entry.  The shift times configured on the
    staff record do not change the result.

    The jobs of the day are the jobs of the list that are assigned to
    the staff member and due on the local day of the date, in the order
    of the list.  The [k]-th of them in order of due time has its travel
    entry at position [2 * k] and its own entry at position [2 * k + 1]
    of the part between the base and the end entry: the travel entry has
    type [travel] and a duration of 15 to 60 minutes, and starts that
    many minutes before the job; the job's entry has type [job], the id
    of the job and the local hour and minute of its due date.  No entry
    in between is a base or an end entry. *)
Theorem day_schedule_shape (u : User.t) (d : Date) (n : nat)
    (Hvalid : validStaff u = true)
    (Hjobs : Forall (fun j => hasId j = true /\ exists t, dueStamp j = Some t)
                    (dayJobs u d)) :
  exists (visits : list ScheduleEntry) (endTime : string) (n' : nat),
    generateDaySchedule (Some u) (Some d) n
      = (Ok (baseEntry u :: visits ++ [endEntry (isLateShift u d) endTime]), n')
    /\ Visits (sortedJobs u d) visits
    /\ Permutation (sortedJobs u d) (dayJobs u d)
    /\ StronglySorted dueBefore (sortedJobs u d)
    /\ (exists b : BaseLocation,
           baseLocationData u = Own b
           /\ baseEntry u
              = {| time := "05:00"; type := base; location := Some (address b);
                   description := "Start shift at base location";
                   jobId := None; estimatedDuration := None;
                   coordinates := Some (base_coordinates b) |})
    /\ (forall start finish : option string,
           generateDaySchedule (Some (withShiftTimes start finish u)) (Some d) n
           = generateDaySchedule (Some u) (Some d) n)
    /\ (forall j : Job.t,
           In j (dayJobs u d)
           <-> In (Some j) jobs
               /\ Job.assignedTo j = User.id u
               /\ exists s, Job.dueDate j = Some s /\ s <> EmptyString
                            /\ isSameDay (parseISO s) d = true)
    /\ sublist (map Some (dayJobs u d)) jobs
    /\ length visits = (2 * length (sortedJobs u d))%nat
    /\ (forall (k : nat) (j : Job.t),
           nth_error (sortedJobs u d) k = Some j ->
           exists (s : string) (t : Z) (tr jb : ScheduleEntry) (travelTime : Z),
             Job.dueDate j = Some s
             /\ parseISO s = TimeValue t
             /\ nth_error visits (2 * k) = Some tr
             /\ nth_error visits (2 * k + 1) = Some jb
             /\ type tr = travel
             /\ estimatedDuration tr = Some travelTime
             /\ 15 <= travelTime <= 60
             /\ time tr = subtractMinutes (time jb) travelTime
             /\ type jb = job
             /\ jobId jb = Job.id j
             /\ time jb = clock (localHour t) (localMinute t))
    /\ List.Forall (fun e => type e = travel \/ type e = job) visits
    /\ type (endEntry (isLateShift u d) endTime) = end_
    /\ time (endEntry (isLateShift u d) endTime) = endTime.
Proof.
  destruct (generateDaySchedule_run u d n Hvalid)
    as (es & st & n' & _ & _ & Hvis & Hgen).
  destruct (validStaff_inv u Hvalid) as [_ [b Hb]].
  assert (Hids : Forall (fun j => hasId j = true) (sortedJobs u d)).
  { unfold sortedJobs. apply Array_sort_Forall.
    eapply Forall_impl; [exact Hjobs |]. intros j [H _]. exact H. }
  rewrite (filter_all _ _ Hids) in Hvis.
  eexists es, _, n'. split; [exact Hgen |]. split; [exact Hvis |].
  split; [apply Array_sort_perm |].
  split.
  { unfold sortedJobs. apply Array_sort_sorted.
    pose proof (dayJobs_isDayJob u d) as Hday.
    rewrite Forall_forall in Hjobs, Hday. apply Forall_forall.
    intros j Hin. split.
    - apply (isDayJob_due u d j (Hday j Hin)).
    - apply (Hjobs j Hin). }
  split.
  { exists b. split; [exact Hb |]. unfold baseEntry. rewrite Hb. reflexivity. }
  split.
  { intros start finish. apply generateDaySchedule_ignores_shift_times. }
  split.
  { intros j. rewrite dayJobs_spec, isDayJob_spec. reflexivity. }
  split; [apply dayJobs_sublist |].
  split; [apply (Visits_even_length _ _ Hvis) |].
  split.
  { intros k j Hk.
    destruct (Visits_nth _ _ Hvis k j Hk) as (jobTime & tt & Hfmt & Htt & Htr & Hjb).
    assert (Hin : In j (dayJobs u d)).
    { apply (Permutation_in j (Array_sort_perm compareJobs (dayJobs u d))).
      apply (nth_error_In _ _ Hk). }
    apply dayJobs_spec in Hin as [_ Hday].
    destruct (isDayJob_due u d j Hday) as [Hdue [t Ht]].
    destruct (Job.dueDate j) as [s |] eqn:Es; [| discriminate Hdue].
    cbn [default from_option Datatypes.id] in Ht, Hfmt.
    rewrite Ht in Hfmt. injection Hfmt as <-.
    exists s, t, (travelEntry j (clock (localHour t) (localMinute t)) tt),
      (jobEntry j (clock (localHour t) (localMinute t))), tt.
    split; [reflexivity |]. split; [exact Ht |].
    split; [exact Htr |]. split; [exact Hjb |].
    split; [reflexivity |]. split; [reflexivity |]. split; [exact Htt |].
    split; [reflexivity |]. split; [reflexivity |]. split; reflexivity. }
  split; [apply (Visits_types _ _ Hvis) |].
  split; reflexivity.
Qed.

Lemma Visits_job_preceded (js : list Job.t) (es : list ScheduleEntry) :
  Visits js es ->
  forall (i : nat) (e : ScheduleEntry),
    nth_error es i = Some e -> type e = job ->
    exists e', (0 < i)%nat /\ nth_error es (i - 1) = Some e' /\ type e' = travel.
Proof.
  induction 1 as [| j js jobTime travelTime es Hfmt Hb Hvis IH]; intros i e Hi Hty.
  - destruct i; discriminate Hi.
  - destruct i as [| [| k]]; cbn [nth_error] in Hi.
    + injection Hi as <-. discriminate Hty.
    + exists (travelEntry j jobTime travelTime). repeat split. lia.
    + destruct (IH k e Hi Hty) as (e' & Hk & He' & Hty').
      exists e'. split; [lia |]. split; [| exact Hty'].
      destruct k as [| k']; [lia |].
      cbn [Nat.sub nth_error] in *. rewrite Nat.sub_0_r in He'. exact He'.
Qed.

Lemma Visits_travel_bounds (js : list Job.t) (es : list ScheduleEntry) :
  Visits js es ->
  forall e, In e es -> type e = travel ->
            exists t, estimatedDuration e = Some t /\ 15 <= t <= 60.
Proof.
  induction 1 as [| j js jobTime travelTime es Hfmt Hb Hvis IH]; intros e Hin Hty.
  - destruct Hin.
  - destruct Hin as [<- | [<- | Hin]].
    + exists travelTime. split; [reflexivity | exact Hb].
    + discriminate Hty.
    + apply IH; assumption.
Qed.

(** C10.  In the list the builder returns for an accepted staff member,
    every job entry comes directly after a travel entry, and every
    travel entry has an estimated duration between 15 and 60.  The
    travel entry is there for every job: each job of the list that
    carries an id, is assigned to the staff member and is due on the
    local day of the date has, somewhere in the list, a travel entry of
    15 to 60 minutes directly followed by an entry of type [job] with
    the id of that job. *)
Theorem travel_precedes_every_job (u : User.t) (d : Date) (n : nat)
    (Hvalid : validStaff u = true) :
  exists (es : list ScheduleEntry) (n' : nat),
    generateDaySchedule (Some u) (Some d) n = (Ok es, n')
    /\ (forall (i : nat) (e : ScheduleEntry),
           nth_error es i = Some e -> type e = job ->
           exists e', (0 < i)%nat /\ nth_error es (i - 1) = Some e'
                      /\ type e' = travel)
    /\ (forall e : ScheduleEntry,
           In e es -> type e = travel ->
           exists t, estimatedDuration e = Some t /\ 15 <= t <= 60
                     /\ (0 <? t) = true)
    /\ (forall (j : Job.t) (s : string),
           In (Some j) jobs ->
           hasId j = true ->
           Job.assignedTo j = User.id u ->
           Job.dueDate j = Some s ->
           s <> EmptyString ->
           isSameDay (parseISO s) d = true ->
           exists (i : nat) (tr jb : ScheduleEntry) (travelTime : Z),
             nth_error es i = Some tr
             /\ nth_error es (S i) = Some jb
             /\ type tr = travel
             /\ estimatedDuration tr = Some travelTime
             /\ 15 <= travelTime <= 60
             /\ (0 <? travelTime) = true
             /\ type jb = job
             /\ jobId jb = Job.id j).
Proof.
  destruct (generateDaySchedule_run u d n Hvalid)
    as (vs & st & n' & _ & _ & Hvis & Hgen).
  eexists _, n'. split; [exact Hgen |]. split; [| split].
  - intros i e Hi Hty. destruct i as [| k]; cbn [nth_error] in Hi.
    + injection Hi as <-. discriminate Hty.
    + destruct (Nat.lt_ge_cases k (length vs)) as [Hlt | Hge].
      * rewrite nth_error_app1 in Hi by exact Hlt.
        destruct (Visits_job_preceded _ _ Hvis k e Hi Hty) as (e' & Hk & He' & Hty').
        exists e'. split; [lia |]. split; [| exact Hty'].
        cbn [Nat.sub]. rewrite Nat.sub_0_r.
        destruct k as [| k']; [lia |]. cbn [nth_error].
        cbn [Nat.sub] in He'. rewrite Nat.sub_0_r in He'.
        rewrite nth_error_app1; [exact He' |].
        apply nth_error_Some. rewrite He'. discriminate.
      * rewrite nth_error_app2 in Hi by exact Hge.
        destruct (k - length vs)%nat as [| m]; cbn [nth_error] in Hi.
        -- injection Hi as <-. discriminate Hty.
        -- destruct m; discriminate Hi.
  - intros e Hin Hty. destruct Hin as [<- | Hin]; [discriminate Hty |].
    apply in_app_or in Hin as [Hin | [<- | []]]; [| discriminate Hty].
    destruct (Visits_travel_bounds _ _ Hvis e Hin Hty) as (t & Ht & Hb).
    exists t. split; [exact Ht |]. split; [exact Hb |]. apply Z.ltb_lt. lia.
  - intros j s Hin Hid Hown Hdue Hs Hday.
    assert (Hj : In j (List.filter hasId (sortedJobs u d))).
    { apply List.filter_In. split; [| exact Hid].
      apply (Permutation_in j (Permutation_sym (Array_sort_perm compareJobs (dayJobs u d)))).
      apply dayJobs_spec. split; [exact Hin |].
      apply isDayJob_spec. split; [exact Hown |]. exists s.
      split; [exact Hdue |]. split; [exact Hs | exact Hday]. }
    apply In_nth_error in Hj as [k Hk].
    destruct (Visits_nth _ _ Hvis k j Hk) as (jobTime & tt & _ & Htt & Htr & Hjb).
    assert (H0 : (2 * k < length vs)%nat)
      by (apply nth_error_Some; rewrite Htr; discriminate).
    assert (H1 : (2 * k + 1 < length vs)%nat)
      by (apply nth_error_Some; rewrite Hjb; discriminate).
    exists (S (2 * k)), (travelEntry j jobTime tt), (jobEntry j jobTime), tt.
    split; [cbn [nth_error]; rewrite nth_error_app1 by exact H0; exact Htr |].
    split.
    { replace (S (2 * k)) with (2 * k + 1)%nat by lia. cbn [nth_error].
      rewrite nth_error_app1 by exact H1. exact Hjb. }
    split; [reflexivity |]. split; [reflexivity |]. split; [exact Htt |].
    split; [apply Z.ltb_lt; lia |]. split; reflexivity.
Qed.

(* ------------------------------------------------------------------- *)
(** *** The week aggregator *)
(* ------------------------------------------------------------------- *)

(** One cell with a valid day: the map gains, at the key of the cell,
    the entries the builder returned, or the empty list when it threw. *)
Lemma fillCell_valid (u : User.t) (t : Z)
    (m : gmap string (list ScheduleEntry)) (n : nat) :
  fillCell u (TimeValue t) m n
  = (Ok (<[idText u +:+ "-" +:+ format_yMd t
           := cellEntries (generateDaySchedule (Some u) (Some (TimeValue t)) n).1]> m),
     (generateDaySchedule (Some u) (Some (TimeValue t)) n).2).
Proof.
  unfold fillCell, try_catch, bind, lift, ret, scheduleKey. cbn [format_date].
  destruct (generateDaySchedule (Some u) (Some (TimeValue t)) n) as [[es | e] n'];
    reflexivity.
Qed.

Lemma forEachDay_total (u : User.t) (days : list Date) :
  Forall (fun d => isValidDate d = true) days ->
  forall (m : gmap string (list ScheduleEntry)) (n : nat),
    exists m' n', forEachDay u days m n = (Ok m', n').
Proof.
  induction 1 as [| [t |] days Hd _ IH]; intros m n; cbn [forEachDay].
  - exists m, n. reflexivity.
  - unfold bind. rewrite fillCell_valid. apply IH.
  - discriminate Hd.
Qed.

Lemma weekDays_valid : Forall (fun d => isValidDate d = true) weekDays.
Proof. unfold weekDays. apply Forall_map, Forall_true. reflexivity. Qed.

Lemma weekDays_seven : length weekDays = 7%nat.
Proof. reflexivity. Qed.

Lemma forEachStaff_total (us : list User.t) :
  forall (m : gmap string (list ScheduleEntry)) (n : nat),
    exists m' n', forEachStaff us m n = (Ok m', n').
Proof.
  induction us as [| u us IH]; intros m n; cbn [forEachStaff].
  - exists m, n. reflexivity.
  - unfold bind.
    destruct (forEachDay_total u weekDays weekDays_valid m n) as (m1 & n1 & ->).
    apply IH.
Qed.

(** Were a day an invalid date, the handler would throw in turn: it
    formats the day again to rebuild the key.  [weekDays] holds none. *)
Lemma fillCell_invalid_day (u : User.t)
    (m : gmap string (list ScheduleEntry)) (n : nat) :
  fillCell u InvalidDate m n = (Throw RangeError, n).
Proof. reflexivity. Qed.



(* ------------------------------------------------------------------- *)
(** *** The CSV export *)
(* ------------------------------------------------------------------- *)

Lemma append_cons (x : ascii) (a b : string) :
  String x a +:+ b = String x (a +:+ b).
Proof. reflexivity. Qed.

Lemma append_nil (b : string) : EmptyString +:+ b = b.
Proof. reflexivity. Qed.

Lemma append_assoc (a b c : string) : (a +:+ b) +:+ c = a +:+ (b +:+ c).
Proof.
  induction a as [| x a IH]; [reflexivity |].
  rewrite !append_cons, IH. reflexivity.
Qed.

Lemma has_char_app (c : ascii) (a b : string) :
  has_char c (a +:+ b) = has_char c a || has_char c b.
Proof.
  induction a as [| x a IH].
  - reflexivity.
  - rewrite append_cons. cbn [has_char]. rewrite IH. apply orb_assoc.
Qed.

Lemma has_LF_uint (u : Decimal.uint) :
  has_char LF (NilEmpty.string_of_uint u) = false.
Proof. induction u; cbn [NilEmpty.string_of_uint has_char]; try rewrite IHu; reflexivity. Qed.

Lemma has_LF_toString (z : Z) : has_char LF (Z_toString z) = false.
Proof.
  unfold Z_toString, NilZero.string_of_int, NilZero.string_of_uint.
  destruct (Z.to_int z) as [u | u]; destruct u;
    cbn [has_char]; try reflexivity;
    match goal with
    | |- context [has_char LF (NilEmpty.string_of_uint ?v)] =>
        cbn [NilEmpty.string_of_uint has_char]; rewrite (has_LF_uint _); reflexivity
    end.
Qed.

Lemma split_cons_other (sep c : ascii) (s : string) :
  Ascii.eqb c sep = false ->
  split sep (String c s)
  = match split sep s with p :: ps => String c p :: ps | [] => [String c EmptyString] end.
Proof. intros H. cbn [split]. rewrite H. reflexivity. Qed.

Lemma split_single (sep : ascii) (s : string) :
  has_char sep s = false -> split sep s = [s].
Proof.
  induction s as [| c s IH]; cbn [has_char]; intros H.
  - reflexivity.
  - apply orb_false_iff in H as [Hc Hs].
    rewrite split_cons_other by exact Hc. rewrite (IH Hs). reflexivity.
Qed.

Lemma split_app (sep : ascii) (a b : string) :
  has_char sep a = false ->
  split sep (a +:+ String sep b) = a :: split sep b.
Proof.
  induction a as [| c a IH]; cbn [has_char]; intros H.
  - rewrite append_nil. cbn [split]. rewrite Ascii.eqb_refl. reflexivity.
  - apply orb_false_iff in H as [Hc Ha].
    rewrite append_cons, split_cons_other by exact Hc. rewrite (IH Ha). reflexivity.
Qed.

Lemma split_join (sep : ascii) (x : string) (l : list string) :
  Forall (fun s => has_char sep s = false) (x :: l) ->
  split sep (join (String sep EmptyString) (x :: l)) = x :: l.
Proof.
  revert x. induction l as [| y l IH]; intros x H; inversion H as [| ? ? Hx Hl]; subst.
  - cbn. apply split_single. exact Hx.
  - change (join (String sep EmptyString) (x :: y :: l))
      with (x +:+ String sep (join (String sep EmptyString) (y :: l))).
    rewrite split_app by exact Hx. rewrite (IH y Hl). reflexivity.
Qed.

Lemma csvRow_text (dateText : string) (e : ScheduleEntry) :
  csvRow dateText e
  = dateText +:+ "," +:+ time e +:+ "," +:+ type_name (type e) +:+ ","
    +:+ dquote +:+ default "undefined"%string (location e) +:+ dquote +:+ ","
    +:+ dquote +:+ description e +:+ dquote +:+ ","
    +:+ Z_toString (default 0 (estimatedDuration e)).
Proof.
  unfold csvRow, quoted, join, durationOrZero. cbn [String.concat default].
  rewrite !append_assoc.
  do 15 f_equal.
  destruct (estimatedDuration e) as [z |]; [| reflexivity].
  cbn [default]. destruct (Z.eqb_spec z 0) as [-> |]; reflexivity.
Qed.

Lemma weekRows_valid (schedules : gmap string (list ScheduleEntry))
    (staffId : string) (ts : list Z) :
  forall rows,
    weekRows schedules staffId (map TimeValue ts) rows
    = Ok (rows ++ expectedRows schedules staffId ts).
Proof.
  induction ts as [| t ts IH]; intros rows; cbn [map weekRows].
  - unfold expectedRows. cbn [flat_map]. rewrite app_nil_r. reflexivity.
  - unfold dayRows. cbn [format_date]. rewrite IH.
    unfold expectedRows, entriesOn. cbn [flat_map]. rewrite app_assoc. reflexivity.
Qed.

Lemma expectedRows_length (schedules : gmap string (list ScheduleEntry))
    (staffId : string) (ts : list Z) :
  length (expectedRows schedules staffId ts) = entryCount schedules staffId ts.
Proof.
  unfold expectedRows, entryCount.
  induction ts as [| t ts IH]; cbn [flat_map map list_sum fold_right].
  - reflexivity.
  - rewrite length_app, length_map, IH. reflexivity.
Qed.

Lemma type_name_single_line (ty : EntryType) : has_char LF (type_name ty) = false.
Proof. destruct ty; reflexivity. Qed.

Lemma csvRow_single_line (dateText : string) (e : ScheduleEntry) :
  has_char LF dateText = false -> singleLine e = true ->
  has_char LF (csvRow dateText e) = false.
Proof.
  intros Hd He. unfold singleLine in He.
  apply andb_true_iff in He as [He Hdesc]. apply andb_true_iff in He as [Htime Hloc].
  apply negb_true_iff in Hdesc, Htime, Hloc.
  rewrite csvRow_text, !has_char_app.
  rewrite Hd, Htime, Hdesc, type_name_single_line, has_LF_toString.
  destruct (location e) as [l |]; cbn [default] in *; [rewrite Hloc |]; reflexivity.
Qed.

Lemma expectedRows_single_line (schedules : gmap string (list ScheduleEntry))
    (staffId : string) (ts : list Z) :
  singleLineWeek schedules staffId ts = true ->
  Forall (fun s => has_char LF s = false) (expectedRows schedules staffId ts).
Proof.
  unfold singleLineWeek, expectedRows.
  induction ts as [| t ts IH]; cbn [forallb flat_map]; intros H.
  - constructor.
  - apply andb_true_iff in H as [Ht Hts]. apply andb_true_iff in Ht as [Hdate Hes].
    apply negb_true_iff in Hdate. rewrite forallb_forall in Hes.
    apply Forall_app. split; [| apply IH; exact Hts].
    apply List.Forall_forall. intros row Hin. apply in_map_iff in Hin as (e & <- & Hin).
    apply csvRow_single_line; [exact Hdate | apply Hes; exact Hin].
Qed.

(** C9 (amended).  For a staff member found by id and a week whose
    dates and entry texts hold no line feed, the exported
    text splits at line feeds into exactly the header followed by one
    row per entry, day by day in week order and each day in the order of
    its list: one more line than the week has entries.  Every row is the
    date, the time and the type bare, the location and the description
    each between double quotes, and the duration, which is 0 for an
    entry without one. *)
Theorem csv_export_lines (schedules : gmap string (list ScheduleEntry))
    (staffId : string) (u : User.t)
    (Hfound : findStaff staffId = Some u)
    (Hlines : singleLineWeek schedules staffId weekTimes = true) :
  exists csv : string,
    exportScheduleCSV schedules staffId = Ok (Some csv)
    /\ csv = join (String LF EmptyString)
               (join "," csvHeaders :: expectedRows schedules staffId weekTimes)
    /\ lines csv = join "," csvHeaders :: expectedRows schedules staffId weekTimes
    /\ length (lines csv) = S (entryCount schedules staffId weekTimes)
    /\ length weekTimes = 7%nat
    /\ (forall (dateText : string) (e : ScheduleEntry),
           csvRow dateText e
           = dateText +:+ "," +:+ time e +:+ "," +:+ type_name (type e) +:+ ","
             +:+ dquote +:+ default "undefined"%string (location e) +:+ dquote +:+ ","
             +:+ dquote +:+ description e +:+ dquote +:+ ","
             +:+ Z_toString (default 0 (estimatedDuration e))).
Proof.
  eexists. split.
  { unfold exportScheduleCSV, weekDays. rewrite Hfound, weekRows_valid.
    cbn [app]. reflexivity. }
  assert (Hsplit : lines (join (String LF EmptyString)
                       (join "," csvHeaders :: expectedRows schedules staffId weekTimes))
                   = join "," csvHeaders :: expectedRows schedules staffId weekTimes).
  { unfold lines. apply split_join. constructor; [reflexivity |].
    apply expectedRows_single_line. exact Hlines. }
  split; [reflexivity |]. split; [exact Hsplit |]. split.
  - rewrite Hsplit. cbn [length]. rewrite expectedRows_length. reflexivity.
  - split; [reflexivity | apply csvRow_text].
Qed.

(* ------------------------------------------------------------------- *)
(** *** More on the time helpers *)
(* ------------------------------------------------------------------- *)

Lemma clock_inj (h1 m1 h2 m2 : Z) :
  0 <= h1 <= 23 -> 0 <= m1 <= 59 -> 0 <= h2 <= 23 -> 0 <= m2 <= 59 ->
  clock h1 m1 = clock h2 m2 -> h1 = h2 /\ m1 = m2.
Proof.
  forget_env.
  intros H1 H2 H3 H4 E.
  pose proof (parseTime_clock h1 m1 H1 H2) as P1.
  pose proof (parseTime_clock h2 m2 H3 H4) as P2.
  rewrite E in P1. rewrite P1 in P2. injection P2 as -> ->. split; reflexivity.
Qed.

Lemma compareTime_clocks (h1 m1 h2 m2 : Z) :
  0 <= h1 <= 23 -> 0 <= m1 <= 59 -> 0 <= h2 <= 23 -> 0 <= m2 <= 59 ->
  compareTime (clock h1 m1) (clock h2 m2) = Some (h1 * 60 + m1 - (h2 * 60 + m2)).
Proof.
  forget_env.
  intros H1 H2 H3 H4. unfold compareTime.
  rewrite !parseTime_clock by assumption. reflexivity.
Qed.

Lemma formatMinutes_clock (x : Z) :
  0 <= x < 1440 ->
  formatMinutes x = clock (x / 60) (x mod 60)
  /\ 0 <= x / 60 <= 23 /\ 0 <= x mod 60 <= 59
  /\ x / 60 * 60 + x mod 60 = x.
Proof.
  forget_env. intros Hx. split; [reflexivity |].
  Z.to_euclidean_division_equations. lia.
Qed.

(** X1.  On two well-formed times [compareTime] is the difference of
    their minutes since midnight; swapping the arguments negates it, and
    it is zero exactly when the two times are the same text. *)
Theorem compareTime_orders_clock_times (h1 m1 h2 m2 : Z)
    (Hh1 : 0 <= h1 <= 23) (Hm1 : 0 <= m1 <= 59)
    (Hh2 : 0 <= h2 <= 23) (Hm2 : 0 <= m2 <= 59) :
  compareTime (clock h1 m1) (clock h2 m2) = Some (h1 * 60 + m1 - (h2 * 60 + m2))
  /\ compareTime (clock h2 m2) (clock h1 m1) = Some (- (h1 * 60 + m1 - (h2 * 60 + m2)))
  /\ (compareTime (clock h1 m1) (clock h2 m2) = Some 0 <-> clock h1 m1 = clock h2 m2).
Proof.
  forget_env.
  rewrite !compareTime_clocks by assumption.
  split; [reflexivity |]. split; [f_equal; lia |]. split.
  - intros E. injection E as E.
    assert (h1 = h2 /\ m1 = m2) as [-> ->] by lia. reflexivity.
  - intros E. destruct (clock_inj _ _ _ _ Hh1 Hm1 Hh2 Hm2 E) as [-> ->].
    f_equal. lia.
Qed.

(** X2.  Adding minutes to a well-formed time gives a well-formed time;
    adding in two steps is adding the sum, and adding a whole day changes
    nothing. *)
Theorem addMinutes_composes (h m a b : Z)
    (Hh : 0 <= h <= 23) (Hm : 0 <= m <= 59) (Ha : 0 <= a) (Hb : 0 <= b) :
  (exists h' m', 0 <= h' <= 23 /\ 0 <= m' <= 59
                 /\ addMinutes (clock h m) a = clock h' m')
  /\ addMinutes (addMinutes (clock h m) a) b = addMinutes (clock h m) (a + b)
  /\ addMinutes (clock h m) (a + 1440) = addMinutes (clock h m) a
  /\ addMinutes (clock h m) 0 = clock h m.
Proof.
  forget_env.
  rewrite !addMinutes_clock by lia.
  set (x := (h * 60 + m + a) mod 1440).
  assert (Hx : 0 <= x < 1440) by (apply Z.mod_pos_bound; lia).
  destruct (formatMinutes_clock x Hx) as (Ex & Hq & Hr & Hsum).
  split; [exists (x / 60), (x mod 60); repeat split; try lia; exact Ex |].
  split.
  { rewrite Ex, addMinutes_clock by lia. f_equal. rewrite Hsum. unfold x.
    rewrite Zplus_mod_idemp_l. f_equal. lia. }
  split.
  { f_equal. unfold x. replace (h * 60 + m + (a + 1440)) with (h * 60 + m + a + 1 * 1440) by lia.
    apply Z.mod_add. lia. }
  replace (h * 60 + m + 0) with (h * 60 + m) by lia.
  rewrite Z.mod_small by lia.
  unfold formatMinutes. f_equal; Z.to_euclidean_division_equations; lia.
Qed.

(** X3.  Taking away the minutes just added gives the time back, as long
    as the sum stays within the day. *)
Theorem subtractMinutes_undoes_addMinutes (h m k : Z)
    (Hh : 0 <= h <= 23) (Hm : 0 <= m <= 59) (Hk : 0 <= k)
    (Hday : h * 60 + m + k < 1440) :
  subtractMinutes (addMinutes (clock h m) k) k = clock h m.
Proof.
  forget_env.
  rewrite addMinutes_clock by lia.
  rewrite Z.mod_small by lia.
  destruct (formatMinutes_clock (h * 60 + m + k) ltac:(lia)) as (Ex & Hq & Hr & Hsum).
  rewrite Ex, subtractMinutes_clock by lia. rewrite Hsum.
  replace (Z.max 0 (h * 60 + m + k - k)) with (h * 60 + m) by lia.
  unfold formatMinutes. f_equal; Z.to_euclidean_division_equations; lia.
Qed.

(** X4.  Adding back the minutes just taken away gives the time back, as
    long as the difference does not go below midnight. *)
Theorem addMinutes_undoes_subtractMinutes (h m k : Z)
    (Hh : 0 <= h <= 23) (Hm : 0 <= m <= 59) (Hk : 0 <= k)
    (Hday : k <= h * 60 + m) :
  addMinutes (subtractMinutes (clock h m) k) k = clock h m.
Proof.
  forget_env.
  rewrite subtractMinutes_clock by lia.
  rewrite Z.max_r by lia.
  destruct (formatMinutes_clock (h * 60 + m - k) ltac:(lia)) as (Ex & Hq & Hr & Hsum).
  rewrite Ex, addMinutes_clock by lia. rewrite Hsum.
  replace (h * 60 + m - k + k) with (h * 60 + m) by lia.
  rewrite Z.mod_small by lia.
  unfold formatMinutes. f_equal; Z.to_euclidean_division_equations; lia.
Qed.

Lemma parseTime_without_colon (time : string) :
  has_char ":"%char time = false -> snd (parseTime time) = None.
Proof.
  forget_env.
  intros H. unfold parseTime. rewrite (split_single _ _ H). reflexivity.
Qed.

(** X5.  A time text without a colon has no minutes to read: [addMinutes]
    and [subtractMinutes] return ["NaN:NaN"] on it and [compareTime] is
    [NaN] on either side. *)
Theorem time_without_colon_is_NaN (time : string) (k : Z)
    (Hnone : has_char ":"%char time = false) :
  addMinutes time k = "NaN:NaN"%string
  /\ subtractMinutes time k = "NaN:NaN"%string
  /\ (forall other, compareTime time other = None)
  /\ (forall other, compareTime other time = None).
Proof.
  forget_env.
  pose proof (parseTime_without_colon time Hnone) as Hp.
  unfold addMinutes, subtractMinutes, compareTime.
  destruct (parseTime time) as [hh mm]. cbn [snd] in Hp. subst mm.
  repeat split.
  - destruct hh; reflexivity.
  - destruct hh; reflexivity.
  - intros other. destruct (parseTime other) as [h2 m2]. destruct hh; reflexivity.
  - intros other. destruct (parseTime other) as [[h2 |] [m2 |]]; destruct hh; reflexivity.
Qed.

(* ------------------------------------------------------------------- *)
(** *** More on the week parity *)
(* ------------------------------------------------------------------- *)

(** X6.  Before 1 January 2024 no date falls in a late-shift week, and
    neither does an invalid date: the remainder of a negative week number
    is never 1. *)
Theorem isLateShiftWeek_false_before_2024 (t : Z) (Hbefore : t < jan1_2024) :
  isLateShiftWeek (TimeValue t) = false
  /\ isLateShiftWeek InvalidDate = false.
Proof.
  forget_env.
  split; [| reflexivity].
  unfold isLateShiftWeek, differenceInMinutes. cbn [floor_div rem].
  set (w := Z.quot (t - jan1_2024) 60000 / (7 * 24 * 60)).
  assert (Hw : w <= 0) by (unfold w; Z.to_euclidean_division_equations; lia).
  pose proof (Z.rem_nonpos w 2 ltac:(lia) Hw) as Hr.
  destruct (Z.rem w 2) as [| p | p]; try reflexivity. lia.
Qed.

Lemma isLateShiftWeek_from_2024 (t : Z) :
  jan1_2024 <= t ->
  isLateShiftWeek (TimeValue t) = Z.odd ((t - jan1_2024) / week_ms).
Proof.
  forget_env.
  intros Ht.
  unfold isLateShiftWeek, differenceInMinutes. cbn [floor_div rem].
  rewrite Z.quot_div_nonneg by lia.
  rewrite Z.div_div by lia.
  change (60000 * (7 * 24 * 60)) with week_ms.
  set (w := (t - jan1_2024) / week_ms).
  assert (Hw : 0 <= w) by (apply Z.div_pos; unfold week_ms; lia).
  rewrite Z.rem_mod_nonneg by lia.
  rewrite Zmod_odd. destruct (Z.odd w); reflexivity.
Qed.

(** X7.  From 1 January 2024 on, a date is in a late-shift week exactly
    when the number of whole weeks since then is odd: the first week is a
    normal one, and a week later the answer is the opposite. *)
Theorem isLateShiftWeek_alternates (t : Z) (Hfrom : jan1_2024 <= t) :
  isLateShiftWeek (TimeValue t) = Z.odd ((t - jan1_2024) / week_ms)
  /\ isLateShiftWeek (TimeValue (t + week_ms)) = negb (isLateShiftWeek (TimeValue t))
  /\ isLateShiftWeek (TimeValue jan1_2024) = false.
Proof.
  forget_env.
  assert (Hpos : 0 < week_ms) by (unfold week_ms; lia).
  split; [apply isLateShiftWeek_from_2024; exact Hfrom |]. split.
  - rewrite !isLateShiftWeek_from_2024 by lia.
    replace (t + week_ms - jan1_2024) with (t - jan1_2024 + 1 * week_ms) by lia.
    rewrite Z.div_add by lia.
    rewrite Z.odd_add. destruct (Z.odd ((t - jan1_2024) / week_ms)); reflexivity.
  - rewrite isLateShiftWeek_from_2024 by lia.
    rewrite Z.sub_diag. reflexivity.
Qed.

(* ------------------------------------------------------------------- *)
(** *** More on the travel-time estimator *)
(* ------------------------------------------------------------------- *)

Lemma Math_round_le (x : R) (k : Z) :
  Math_round x <= k <-> (x < IZR k + / 2)%R.
Proof.
  forget_env.
  pose proof (Math_round_nearest x) as [Hlo Hhi]. split.
  - intros H. apply IZR_le in H. lra.
  - intros H. assert (Hlt : (IZR (Math_round x) < IZR (k + 1))%R)
      by (rewrite plus_IZR; simpl IZR; lra).
    apply lt_IZR in Hlt. lia.
Qed.

Lemma estimateTravelTime_of_round (from to : Coordinates) :
  estimateTravelTime from to
  = Z.max 15 (Z.min 60 (Math_round (degreeDistance from to * 3000)%R)).
Proof. reflexivity. Qed.

(** X8.  The estimate does not depend on the direction of travel, and
    from a point to itself it is the minimum of 15 minutes. *)
Theorem estimateTravelTime_symmetric (a b : Coordinates) :
  estimateTravelTime a b = estimateTravelTime b a
  /\ estimateTravelTime a a = 15.
Proof.
  forget_env.
  split.
  - unfold estimateTravelTime.
    replace ((lat b - lat a) ^ 2 + (lng b - lng a) ^ 2)%R
      with ((lat a - lat b) ^ 2 + (lng a - lng b) ^ 2)%R by ring.
    reflexivity.
  - rewrite estimateTravelTime_of_round. unfold degreeDistance.
    replace ((lat a - lat a) ^ 2 + (lng a - lng a) ^ 2)%R with 0%R by ring.
    rewrite sqrt_0, Rmult_0_l.
    assert (H : Math_round 0 <= 15) by (apply Math_round_le; simpl IZR; lra).
    lia.
Qed.

(** X9.  Where the estimate changes, with a margin of a tenth of a
    minute on either side of each threshold, so that the statement does
    not rest on how the last digit of the distance is rounded.  With [s]
    for 3000 times the degree distance: up to 15.4 the estimate is the
    minimum of 15, from 59.6 on it is the maximum of 60; it is 15 only
    below 15.6 and 60 only above 59.4; and for [s] between 15 and 60 the
    estimate is within 0.6 of [s]. *)
Theorem estimateTravelTime_thresholds (from to : Coordinates) :
  ((degreeDistance from to * 3000 <= 154 / 10)%R
   -> estimateTravelTime from to = 15)
  /\ ((596 / 10 <= degreeDistance from to * 3000)%R
      -> estimateTravelTime from to = 60)
  /\ (estimateTravelTime from to = 15
      -> (degreeDistance from to * 3000 < 156 / 10)%R)
  /\ (estimateTravelTime from to = 60
      -> (594 / 10 < degreeDistance from to * 3000)%R)
  /\ ((15 <= degreeDistance from to * 3000 <= 60)%R
      -> (IZR (estimateTravelTime from to) - 6 / 10
          < degreeDistance from to * 3000
          < IZR (estimateTravelTime from to) + 6 / 10)%R).
Proof.
  forget_env.
  rewrite estimateTravelTime_of_round.
  set (x := (degreeDistance from to * 3000)%R).
  pose proof (Math_round_le x 15) as H15.
  pose proof (Math_round_le x 59) as H59.
  pose proof (Math_round_le x 14) as H14.
  pose proof (Math_round_le x 60) as H60.
  pose proof (Math_round_nearest x) as Hnear.
  simpl IZR in H15, H59, H14, H60.
  split; [| split; [| split; [| split]]].
  - intros H. assert (Math_round x <= 15) by (apply H15; lra). lia.
  - intros H. assert (~ Math_round x <= 59) by (intros Hle; apply H59 in Hle; lra).
    lia.
  - intros H. assert (Hle : Math_round x <= 15) by lia. apply H15 in Hle. lra.
  - intros H. destruct (Rlt_le_dec x (59 + / 2)) as [Hlt | Hge]; [| lra].
    apply H59 in Hlt. lia.
  - intros [Hlo Hhi].
    assert (Hge : ~ Math_round x <= 14) by (intros Hle; apply H14 in Hle; lra).
    assert (Hle : Math_round x <= 60) by (apply H60; lra).
    replace (Z.max 15 (Z.min 60 (Math_round x))) with (Math_round x) by lia.
    lra.
Qed.

Lemma cape_town_far_from_jitter (n : nat) :
  (0 <= random n)%R ->
  estimateTravelTime (base_coordinates Cape_Town) (jitterAt n) = 60.
Proof.
  forget_env.
  intros Hr. apply estimateTravelTime_far.
  unfold jitterAt, Cape_Town. cbn [lat lng base_coordinates].
  set (dl := (-26.2041 + random n * 0.1 - -33.8903)%R).
  assert (Hdl : (1 <= dl)%R) by (unfold dl; lra).
  assert (H1 : (1 <= dl ^ 2)%R) by nra.
  pose proof (pow2_ge_0 (28.0473 + random (S n) * 0.1 - 18.4979)) as H2.
  lra.
Qed.

(** X10.  For a staff member based in Cape Town the first job of the day
    always gets a travel entry of the full 60 minutes, whatever the random
    jitter (a [Math.random()] value is never negative): the jittered
    destination lies in Johannesburg, more than seven degrees away. *)
Theorem cape_town_first_leg_is_an_hour (u : User.t) (j : Job.t) (n : nat) (t : Z)
    (Hbase : baseLocationData u = Own Cape_Town)
    (Hid : hasId j = true)
    (Hdue : truthy (Job.dueDate j) = true)
    (Hparse : parseISO (default EmptyString (Job.dueDate j)) = TimeValue t)
    (Hrandom : (0 <= random n)%R) :
  exists st' : LoopState,
    visitJob j (initialState u) n = (Ok st', (n + 4)%nat)
    /\ schedule st'
       = [ baseEntry u;
           travelEntry j (clock (localHour t) (localMinute t)) 60;
           jobEntry j (clock (localHour t) (localMinute t)) ]
    /\ estimatedDuration (travelEntry j (clock (localHour t) (localMinute t)) 60)
       = Some 60.
Proof.
  forget_env.
  assert (Hloc : currentLocation (initialState u) = Some (base_coordinates Cape_Town)).
  { unfold initialState. cbn [currentLocation]. rewrite Hbase. reflexivity. }
  pose proof (visitJob_run j (initialState u) n _ t Hid Hdue Hparse Hloc) as Hrun.
  cbv zeta in Hrun. rewrite (cape_town_far_from_jitter n Hrandom) in Hrun.
  eexists. split; [exact Hrun |]. split; reflexivity.
Qed.

(* ------------------------------------------------------------------- *)
(** *** More on the day builder *)
(* ------------------------------------------------------------------- *)

Lemma generateDaySchedule_without_jobs (u : User.t) (d : Date) (n : nat) :
  truthy (User.id u) = true -> dayJobs u d = [] ->
  generateDaySchedule (Some u) (Some d) n
  = (Ok [baseEntry u; endEntry (isLateShift u d) (shiftEndOf (isLateShift u d))], n).
Proof.
  forget_env.
  intros Hid Hnone.
  unfold generateDaySchedule. rewrite Hid. cbn [negb].
  unfold sortedJobs. rewrite Hnone.
  cbn [Array_sort fold_right forEachJob]. unfold bind, ret.
  unfold endTimeOf. cbn [length initialState schedule app].
  destruct (isLateShift u d); reflexivity.
Qed.

Lemma isSameDay_invalid (a : Date) : isSameDay a InvalidDate = false.
Proof. destruct a; reflexivity. Qed.

(** X11.  On a [Date] object that is invalid the builder does not throw:
    no job is on that day, the week parity reads as not late, and the
    result is the base entry and the end entry, a late shift only for a
    staff member whose [workingLateShift] is [true]. *)
Theorem invalid_date_gives_base_and_end (u : User.t) (n : nat)
    (Hid : truthy (User.id u) = true) :
  generateDaySchedule (Some u) (Some InvalidDate) n
  = (Ok [ baseEntry u;
          endEntry (bool_decide (workingLateShift u = Some true))
            (shiftEndOf (bool_decide (workingLateShift u = Some true))) ], n).
Proof.
  forget_env.
  assert (Hnone : dayJobs u InvalidDate = []).
  { apply dayJobs_none. intros j _ (_ & s & _ & Hday).
    rewrite isSameDay_invalid in Hday. discriminate Hday. }
  rewrite (generateDaySchedule_without_jobs u InvalidDate n Hid Hnone).
  assert (E : isLateShift u InvalidDate = bool_decide (workingLateShift u = Some true)).
  { unfold isLateShift. destruct (workingLateShift u) as [[|] |]; reflexivity. }
  rewrite E. reflexivity.
Qed.

Lemma Visits_length (js : list Job.t) (es : list ScheduleEntry) :
  Visits js es -> length es = (2 * length js)%nat.
Proof.
  forget_env.
  induction 1 as [| j js jt tt es _ _ _ IH]; cbn [length]; lia.
Qed.

Lemma forEachJob_draws (u : User.t) (d : Date) (js : list Job.t) :
  Forall (fun j => isDayJob u d j = true) js ->
  forall (st : LoopState) (n : nat) (c : Coordinates),
    currentLocation st = Some c ->
    exists st',
      forEachJob js st n = (Ok st', (n + 4 * length (List.filter hasId js))%nat).
Proof.
  forget_env.
  induction 1 as [| j js Hj Hjs IH]; intros st n c Hloc.
  - exists st. cbn. f_equal. lia.
  - cbn [forEachJob List.filter]. unfold bind.
    destruct (hasId j) eqn:Hid.
    + destruct (visitJob_emit u d j st n c Hid Hj Hloc)
        as (jobTime & travelTime & next & _ & _ & Hv).
      rewrite Hv.
      match goal with
      | |- context [forEachJob js ?s ?m] =>
          destruct (IH s m next eq_refl) as (st' & Hrun)
      end.
      exists st'. rewrite Hrun. f_equal. cbn [length]. lia.
    + rewrite (visitJob_skip j st n Hid).
      destruct (IH st n c Hloc) as (st' & Hrun). exists st'. exact Hrun.
Qed.

Lemma filter_length_Permutation {A} (p : A -> bool) (l l' : list A) :
  Permutation l l' -> length (List.filter p l) = length (List.filter p l').
Proof.
  forget_env.
  induction 1 as [| x l l' _ IH | x y l | l l' l'' _ IH1 _ IH2]; cbn [List.filter].
  - reflexivity.
  - destruct (p x); cbn [length]; rewrite IH; reflexivity.
  - destruct (p x), (p y); reflexivity.
  - rewrite IH1. exact IH2.
Qed.

(** The number of jobs of the day that carry an id. *)
Lemma visited_sorted_is_visited_day (u : User.t) (d : Date) :
  length (List.filter hasId (sortedJobs u d))
  = length (List.filter hasId (dayJobs u d)).
Proof. apply filter_length_Permutation, Array_sort_perm. Qed.

(** X12.  For an accepted staff member with [k] jobs of the day that
    carry an id, the builder returns exactly [2 + 2 * k] entries and draws
    exactly [4 * k] random values; jobs without an id cost nothing. *)
Theorem day_schedule_size_and_draws (u : User.t) (d : Date) (n : nat)
    (Hvalid : validStaff u = true) :
  exists es : list ScheduleEntry,
    generateDaySchedule (Some u) (Some d) n
    = (Ok es, (n + 4 * length (List.filter hasId (dayJobs u d)))%nat)
    /\ length es = (2 + 2 * length (List.filter hasId (dayJobs u d)))%nat.
Proof.
  forget_env.
  destruct (generateDaySchedule_run u d n Hvalid)
    as (vs & st & n' & Hrun & _ & Hvis & Hgen).
  destruct (validStaff_inv u Hvalid) as [_ [b Hb]].
  destruct (forEachJob_draws u d (sortedJobs u d) (sortedJobs_isDayJob u d)
              (initialState u) n (base_coordinates b)) as (st2 & Hrun2).
  { unfold initialState. cbn [currentLocation]. rewrite Hb. reflexivity. }
  rewrite Hrun in Hrun2. injection Hrun2 as _ Hn.
  rewrite visited_sorted_is_visited_day in Hn.
  eexists. split; [rewrite Hgen, Hn; reflexivity |].
  cbn [length]. rewrite length_app, (Visits_length _ _ Hvis).
  rewrite visited_sorted_is_visited_day. cbn [length]. lia.
Qed.

Lemma Visits_job_ids (js : list Job.t) (es : list ScheduleEntry) :
  Visits js es ->
  map jobId (List.filter isJobEntry es) = map Job.id js.
Proof.
  forget_env.
  induction 1 as [| j js jt tt es _ _ _ IH]; [reflexivity |].
  cbn [List.filter isJobEntry type travelEntry jobEntry map jobId].
  rewrite IH. reflexivity.
Qed.

(** X13.  The job count a card shows for a built day is the number of
    jobs of the day that carry an id.  When [new Date] reads the due date
    of every job of the day, the ids of the job entries are, in order,
    the ids of those jobs in ascending order of due time: the jobs of
    the day rearranged so that each is due no later than all that
    follow. *)
Theorem job_count_of_built_day (u : User.t) (d : Date) (n : nat)
    (Hvalid : validStaff u = true)
    (Hjobs : List.Forall (fun j => exists t, dueStamp j = Some t) (dayJobs u d)) :
  exists (es : list ScheduleEntry) (n' : nat),
    generateDaySchedule (Some u) (Some d) n = (Ok es, n')
    /\ jobCount es = length (List.filter hasId (dayJobs u d))
    /\ map jobId (List.filter isJobEntry es)
       = map Job.id (List.filter hasId (sortedJobs u d))
    /\ Permutation (sortedJobs u d) (dayJobs u d)
    /\ StronglySorted dueBefore (sortedJobs u d).
Proof.
  destruct (generateDaySchedule_run u d n Hvalid)
    as (vs & st & n' & _ & _ & Hvis & Hgen).
  eexists _, n'. split; [exact Hgen |].
  assert (Hids : map jobId (List.filter isJobEntry
                   (baseEntry u :: vs ++ [endEntry (isLateShift u d)
                      (if gt0 (compareTime (currentTime st) (shiftEndOf (isLateShift u d)))
                       then currentTime st else shiftEndOf (isLateShift u d))]))
                 = map Job.id (List.filter hasId (sortedJobs u d))).
  { cbn [List.filter isJobEntry type baseEntry].
    rewrite List.filter_app. cbn [List.filter isJobEntry type endEntry].
    rewrite app_nil_r. apply Visits_job_ids. exact Hvis. }
  split.
  { unfold jobCount. rewrite <- visited_sorted_is_visited_day.
    rewrite <- (length_map jobId), Hids, length_map. reflexivity. }
  split; [exact Hids |].
  split; [apply Array_sort_perm | apply sortedJobs_sorted; exact Hjobs].
Qed.

Lemma dayJobs_In (u : User.t) (d : Date) (j : Job.t) :
  In j (dayJobs u d) -> In (Some j) jobs /\ isDayJob u d j = true.
Proof.
  forget_env.
  unfold dayJobs. induction jobs as [| [x |] js IH]; cbn [filter_present In].
  - intros [].
  - destruct (isDayJob u d x) eqn:E.
    + intros [<- | Hin]; [split; [left; reflexivity | exact E] |].
      destruct (IH Hin) as [H1 H2]. split; [right; exact H1 | exact H2].
    + intros Hin. destruct (IH Hin) as [H1 H2]. split; [right; exact H1 | exact H2].
  - intros Hin. destruct (IH Hin) as [H1 H2]. split; [right; exact H1 | exact H2].
Qed.

Lemma Visits_job_entries (js : list Job.t) (es : list ScheduleEntry) :
  Visits js es ->
  forall e, In e es -> type e = job ->
    exists j jobTime,
      In j js
      /\ format_HHmm (parseISO (default EmptyString (Job.dueDate j))) = Ok jobTime
      /\ e = jobEntry j jobTime.
Proof.
  forget_env.
  induction 1 as [| j js jt tt es Hfmt _ _ IH]; intros e Hin Hty.
  - destruct Hin.
  - destruct Hin as [<- | [<- | Hin]].
    + discriminate Hty.
    + exists j, jt. split; [left; reflexivity |]. split; [exact Hfmt | reflexivity].
    + destruct (IH e Hin Hty) as (j' & jt' & Hj & Hf & He).
      exists j', jt'. split; [right; exact Hj |]. split; assumption.
Qed.

(** X14.  A built day never shows a job of someone else or of another
    day: every job entry is the entry of a job of the list that is
    assigned to the staff member and due on the local day of the date,
    placed at the local hour and minute of its due date. *)
Theorem built_day_shows_only_own_jobs (u : User.t) (d : Date) (n : nat)
    (Hvalid : validStaff u = true) :
  exists (es : list ScheduleEntry) (n' : nat),
    generateDaySchedule (Some u) (Some d) n = (Ok es, n')
    /\ forall e, In e es -> type e = job ->
         exists (j : Job.t) (s : string) (t : Z),
           In (Some j) jobs
           /\ Job.assignedTo j = User.id u
           /\ Job.dueDate j = Some s
           /\ parseISO s = TimeValue t
           /\ isSameDay (TimeValue t) d = true
           /\ e = jobEntry j (clock (localHour t) (localMinute t)).
Proof.
  forget_env.
  destruct (generateDaySchedule_run u d n Hvalid)
    as (vs & st & n' & _ & _ & Hvis & Hgen).
  eexists _, n'. split; [exact Hgen |].
  intros e Hin Hty.
  destruct Hin as [<- | Hin]; [discriminate Hty |].
  apply in_app_or in Hin as [Hin | [<- | []]]; [| discriminate Hty].
  destruct (Visits_job_entries _ _ Hvis e Hin Hty) as (j & jt & Hj & Hfmt & He).
  apply filter_In in Hj as [Hj _].
  assert (Hday : In j (dayJobs u d)).
  { eapply Permutation_in; [apply Array_sort_perm | exact Hj]. }
  destruct (dayJobs_In u d j Hday) as [Hjobs Hjd].
  pose proof Hjd as Hjd'. unfold isDayJob in Hjd'.
  apply andb_true_iff in Hjd' as [Hjd' Hsame].
  apply andb_true_iff in Hjd' as [Hassigned Hdue].
  apply bool_decide_eq_true in Hassigned.
  destruct (Job.dueDate j) as [s |] eqn:Es; [| discriminate Hdue].
  cbn [default from_option Datatypes.id] in *.
  destruct (parseISO s) as [t |] eqn:Et; [| discriminate Hsame].
  exists j, s, t. repeat split; try assumption.
  cbn [format_HHmm] in Hfmt. injection Hfmt as <-. exact He.
Qed.

Lemma local_clock_bounds (t : Z) :
  0 <= localHour t <= 23 /\ 0 <= localMinute t <= 59.
Proof.
  forget_env.
  unfold localHour, localMinute.
  pose proof (Z.mod_pos_bound (localTime t / 3600000) 24 ltac:(lia)).
  pose proof (Z.mod_pos_bound (localTime t / 60000) 60 ltac:(lia)).
  lia.
Qed.

Lemma travel_before_job_clock (h m tt : Z) :
  0 <= h <= 23 -> 0 <= m <= 59 -> 15 <= tt <= 60 ->
  exists z, compareTime (subtractMinutes (clock h m) tt) (clock h m) = Some z
            /\ -60 <= z <= 0.
Proof.
  forget_env.
  intros Hh Hm Htt.
  rewrite subtractMinutes_clock by lia.
  set (x := Z.max 0 (h * 60 + m - tt)).
  assert (Hx : 0 <= x < 1440) by (unfold x; lia).
  destruct (formatMinutes_clock x Hx) as (Ex & Hq & Hr & Hsum).
  rewrite Ex, compareTime_clocks by lia.
  eexists. split; [reflexivity |]. unfold x in *. lia.
Qed.

Lemma Visits_travel_then_job (js : list Job.t) (es : list ScheduleEntry) :
  Visits js es ->
  forall (i : nat) (tr : ScheduleEntry),
    nth_error es i = Some tr -> type tr = travel ->
    exists jb z,
      nth_error es (S i) = Some jb /\ type jb = job
      /\ compareTime (time tr) (time jb) = Some z /\ -60 <= z <= 0.
Proof.
  forget_env.
  induction 1 as [| j js jt tt es Hfmt Hb _ IH]; intros i tr Hi Hty.
  - destruct i; discriminate Hi.
  - destruct i as [| [| k]]; cbn [nth_error] in Hi.
    + injection Hi as <-.
      destruct (parseISO (default EmptyString (Job.dueDate j))) as [t |];
        [| discriminate Hfmt].
      cbn [format_HHmm] in Hfmt. injection Hfmt as <-.
      destruct (local_clock_bounds t) as [Hh Hm].
      destruct (travel_before_job_clock _ _ tt Hh Hm Hb) as (z & Hz & Hzb).
      eexists _, z. split; [reflexivity |]. split; [reflexivity |].
      split; [exact Hz | exact Hzb].
    + injection Hi as <-. discriminate Hty.
    + destruct (IH k tr Hi Hty) as (jb & z & Hjb & Hjty & Hz & Hzb).
      exists jb, z. split; [exact Hjb |]. split; [exact Hjty |].
      split; [exact Hz | exact Hzb].
Qed.

(** X15.  In a built day every travel entry is directly followed by a
    job entry, and [compareTime] places the travel entry at that job's
    time or up to 60 minutes before it, never after it. *)
Theorem travel_is_never_after_its_job (u : User.t) (d : Date) (n : nat)
    (Hvalid : validStaff u = true) :
  exists (es : list ScheduleEntry) (n' : nat),
    generateDaySchedule (Some u) (Some d) n = (Ok es, n')
    /\ forall (i : nat) (tr : ScheduleEntry),
         nth_error es i = Some tr -> type tr = travel ->
         exists jb z,
           nth_error es (S i) = Some jb /\ type jb = job
           /\ compareTime (time tr) (time jb) = Some z /\ -60 <= z <= 0.
Proof.
  forget_env.
  destruct (generateDaySchedule_run u d n Hvalid)
    as (vs & st & n' & _ & _ & Hvis & Hgen).
  eexists _, n'. split; [exact Hgen |].
  intros i tr Hi Hty.
  destruct i as [| k]; cbn [nth_error] in Hi; [injection Hi as <-; discriminate Hty |].
  destruct (Nat.lt_ge_cases k (length vs)) as [Hlt | Hge].
  - rewrite nth_error_app1 in Hi by exact Hlt.
    destruct (Visits_travel_then_job _ _ Hvis k tr Hi Hty)
      as (jb & z & Hjb & Hjty & Hz & Hzb).
    exists jb, z. split; [| split; [exact Hjty | split; [exact Hz | exact Hzb]]].
    match goal with
    | |- nth_error (_ :: ?l) (S ?m) = _ => change (nth_error l m = Some jb)
    end.
    rewrite nth_error_app1; [exact Hjb |].
    apply nth_error_Some. rewrite Hjb. discriminate.
  - rewrite nth_error_app2 in Hi by exact Hge.
    destruct (k - length vs)%nat as [| m]; cbn [nth_error] in Hi.
    + injection Hi as <-. discriminate Hty.
    + destruct m; discriminate Hi.
Qed.

(** X16.  The shift icon of a card and the end entry of the built day
    agree: the icon is the moon exactly when the end entry says late
    shift, and then the day ends at 19:00 or later by [compareTime]. *)
Theorem shift_icon_matches_end_entry (u : User.t) (d : Date) (n : nat)
    (Hvalid : validStaff u = true) :
  exists (front : list ScheduleEntry) (last : ScheduleEntry) (n' : nat),
    generateDaySchedule (Some u) (Some d) n = (Ok (front ++ [last]), n')
    /\ type last = end_
    /\ description last
       = match getShiftTypeIcon u d with
         | Moon => "Shift ends (Late Shift)"
         | Sun => "Shift ends (Normal Shift)"
         end%string
    /\ exists z,
         compareTime (time last)
           (match getShiftTypeIcon u d with Moon => "19:00" | Sun => "17:00" end)
         = Some z /\ 0 <= z.
Proof.
  forget_env.
  destruct (generateDaySchedule_run u d n Hvalid)
    as (vs & st & n' & _ & _ & _ & Hgen).
  eexists (baseEntry u :: vs), _, n'. split; [exact Hgen |].
  split; [reflexivity |].
  pose proof (end_not_before_shiftEnd (isLateShift u d) (currentTime st)) as Hend.
  unfold getShiftTypeIcon. cbn [description time endEntry].
  destruct (isLateShift u d); split; try reflexivity; exact Hend.
Qed.

Lemma getJobDuration_or_Other (c : option string) :
  getJobDuration (Some (or_else c "Other")) = getJobDuration c.
Proof.
  forget_env.
  destruct c as [s |]; [| reflexivity].
  unfold or_else. destruct (String.eqb_spec s EmptyString) as [-> | _]; reflexivity.
Qed.

(** X17.  The duration a job entry displays is the duration the running
    time advances by: after a visited job the running time is the job's
    time plus the [estimatedDuration] of its entry, also for a missing or
    empty category. *)
Theorem running_time_advances_by_shown_duration
    (j : Job.t) (st : LoopState) (n : nat) (c : Coordinates) (t : Z)
    (Hid : hasId j = true)
    (Hdue : truthy (Job.dueDate j) = true)
    (Hparse : parseISO (default EmptyString (Job.dueDate j)) = TimeValue t)
    (Hloc : currentLocation st = Some c) :
  exists (st' : LoopState) (shown : Z),
    visitJob j st n = (Ok st', (n + 4)%nat)
    /\ estimatedDuration (jobEntry j (clock (localHour t) (localMinute t))) = Some shown
    /\ currentTime st' = addMinutes (clock (localHour t) (localMinute t)) shown
    /\ 60 <= shown <= 180.
Proof.
  forget_env.
  pose proof (visitJob_run j st n c t Hid Hdue Hparse Hloc) as Hrun.
  cbv zeta in Hrun.
  eexists _, _. split; [exact Hrun |]. split; [reflexivity |].
  cbn [currentTime]. rewrite getJobDuration_or_Other. split; [reflexivity |].
  unfold getJobDuration. destruct (Job.category j) as [s |]; [| lia].
  repeat (destruct (String.eqb s _); [lia |]). lia.
Qed.

(** X18.  The base location is the Johannesburg one unless the city is
    ["Cape Town"] or names a member inherited from [Object.prototype]:
    a missing, an empty and an unknown city all fall back to
    Johannesburg. *)
Theorem base_location_falls_back_to_Johannesburg (u : User.t) :
  (User.city u = Some "Cape Town"%string /\ baseLocationData u = Own Cape_Town)
  \/ (In (baseLocationKey u) Object_prototype_keys /\ baseLocationData u = Inherited)
  \/ (User.city u <> Some "Cape Town"%string
      /\ ~ In (baseLocationKey u) Object_prototype_keys
      /\ baseLocationData u = Own Johannesburg
      /\ location (baseEntry u) = Some (address Johannesburg)).
Proof.
  forget_env.
  unfold baseEntry, baseLocationData, validBaseLocation, baseLocationKey, or_else.
  cbn [location].
  destruct (User.city u) as [s |] eqn:Ec.
  - destruct (String.eqb_spec s EmptyString) as [-> | Hne].
    + right. right. repeat split; try discriminate.
      cbn. intuition discriminate.
    + destruct (String.eqb_spec s "Cape Town") as [-> | Hcpt].
      * left. split; reflexivity.
      * destruct (existsb (String.eqb s) Object_prototype_keys) eqn:Ep.
        -- right. left.
           assert (Hin : In s Object_prototype_keys).
           { apply existsb_exists in Ep as (k & Hk & Ek).
             apply String.eqb_eq in Ek. subst k. exact Hk. }
           split; [exact Hin |].
           unfold lookupBase.
           destruct (String.eqb_spec s "Johannesburg") as [-> | _];
             [cbn in Ep; discriminate Ep |].
           destruct (String.eqb_spec s "Cape Town") as [-> | _]; [contradiction |].
           rewrite Ep. unfold lookupBase.
           destruct (String.eqb_spec s "Johannesburg") as [-> | _];
             [cbn in Ep; discriminate Ep |].
           destruct (String.eqb_spec s "Cape Town") as [-> | _]; [contradiction |].
           rewrite Ep. reflexivity.
        -- right. right.
           assert (Hnin : ~ In s Object_prototype_keys).
           { intros Hin. assert (existsb (String.eqb s) Object_prototype_keys = true).
             { apply existsb_exists. exists s. split; [exact Hin | apply String.eqb_refl]. }
             congruence. }
           split; [congruence |]. split; [exact Hnin |].
           unfold lookupBase.
           destruct (String.eqb_spec s "Johannesburg") as [-> | Hj]; [split; reflexivity |].
           destruct (String.eqb_spec s "Cape Town") as [-> | _]; [contradiction |].
           rewrite Ep. split; reflexivity.
  - right. right. repeat split; try discriminate. cbn. intuition discriminate.
Qed.

(* ------------------------------------------------------------------- *)
(** *** More on the week aggregator *)
(* ------------------------------------------------------------------- *)

Lemma is_Some_insert (m : gmap string (list ScheduleEntry)) (k key : string)
    (v : list ScheduleEntry) :
  is_Some (<[k := v]> m !! key) <-> key = k \/ is_Some (m !! key).
Proof.
  forget_env.
  destruct (decide (k = key)) as [-> | Hne].
  - rewrite lookup_insert_eq. split; [intros _; left; reflexivity | intros _; eexists; reflexivity].
  - rewrite lookup_insert_ne by exact Hne. split; [intros H; right; exact H |].
    intros [-> | H]; [contradiction | exact H].
Qed.

Lemma forEachDay_keys (u : User.t) (ts : list Z) :
  forall (m : gmap string (list ScheduleEntry)) (n : nat),
    exists m' n',
      forEachDay u (map TimeValue ts) m n = (Ok m', n')
      /\ forall key, is_Some (m' !! key)
                     <-> is_Some (m !! key) \/ In key (map (cellKey u) ts).
Proof.
  forget_env.
  induction ts as [| t ts IH]; intros m n; cbn [map forEachDay].
  - exists m, n. split; [reflexivity |]. intros key. cbn [In]. tauto.
  - unfold bind. rewrite fillCell_valid.
    match goal with
    | |- context [forEachDay u _ ?m1 ?n1] =>
        destruct (IH m1 n1) as (m' & n' & Hrun & Hkeys)
    end.
    exists m', n'. split; [exact Hrun |].
    intros key. rewrite Hkeys, is_Some_insert. cbn [In]. unfold cellKey.
    split; [intros [[-> | H] | H] | intros [H | [<- | H]]]; auto.
Qed.

Lemma forEachStaff_keys (us : list User.t) :
  forall (m : gmap string (list ScheduleEntry)) (n : nat),
    exists m' n',
      forEachStaff us m n = (Ok m', n')
      /\ forall key, is_Some (m' !! key)
                     <-> is_Some (m !! key)
                         \/ In key (flat_map (fun u => map (cellKey u) weekTimes) us).
Proof.
  forget_env.
  induction us as [| u us IH]; intros m n; cbn [forEachStaff flat_map].
  - exists m, n. split; [reflexivity |]. intros key. cbn [In]. tauto.
  - unfold bind, weekDays.
    destruct (forEachDay_keys u weekTimes m n) as (m1 & n1 & -> & Hk1).
    destruct (IH m1 n1) as (m' & n' & Hrun & Hkeys).
    exists m', n'. split; [exact Hrun |].
    intros key. rewrite Hkeys, Hk1, in_app_iff. tauto.
Qed.

(** X19.  The map [generateSchedules] returns has a cell for exactly the
    keys ["<id>-<yyyy-MM-dd>"] of the staff records with role ["staff"]
    and a non-empty id, on each of the seven days of the week: records of
    another role or without an id get no cell, and no other key is
    written. *)
Theorem generated_map_has_one_cell_per_staff_day (n : nat) :
  exists (m : gmap string (list ScheduleEntry)) (n' : nat),
    generateSchedules n = (Ok m, n')
    /\ (forall key, is_Some (m !! key) <-> In key weekKeys)
    /\ length weekKeys = (7 * length (filter_present isStaff staff))%nat.
Proof.
  forget_env.
  destruct (forEachStaff_keys (filter_present isStaff staff) ∅ n)
    as (m & n' & Hrun & Hkeys).
  exists m, n'. split; [exact Hrun |]. split.
  - intros key. rewrite Hkeys, lookup_empty. unfold weekKeys.
    split; [intros [[x Hx] | H]; [discriminate Hx | exact H] | intros H; right; exact H].
  - clear m n' Hrun Hkeys.
    unfold weekKeys. induction (filter_present isStaff staff) as [| u us IH].
    + reflexivity.
    + cbn [flat_map]. rewrite length_app, length_map, IH.
      unfold weekTimes. cbn [map length]. lia.
Qed.

Lemma visitJob_appends (j : Job.t) (st st' : LoopState) (n n' : nat) :
  visitJob j st n = (Ok st', n') ->
  exists es, schedule st' = schedule st ++ es.
Proof.
  forget_env.
  unfold visitJob, jobTimeOf, callEstimateTravelTime, jitter, bind, lift, ret, Math_random.
  destruct (truthy (Job.id j)); cbn [negb].
  - destruct (truthy (Job.dueDate j));
      [destruct (format_HHmm (parseISO (default EmptyString (Job.dueDate j)))) as [jt | e];
       [| discriminate] |];
      (destruct (currentLocation st) as [c |]; [| discriminate]);
      intros H; injection H as <- _; cbn [schedule];
      match goal with
      | |- context [if ?b then _ else _] => destruct b
      end;
      try rewrite <- app_assoc; eexists; reflexivity.
  - intros H. injection H as <- _. exists []. rewrite app_nil_r. reflexivity.
Qed.

Lemma forEachJob_appends (js : list Job.t) :
  forall (st st' : LoopState) (n n' : nat),
    forEachJob js st n = (Ok st', n') ->
    exists es, schedule st' = schedule st ++ es.
Proof.
  forget_env.
  induction js as [| j js IH]; intros st st' n n'; cbn [forEachJob].
  - intros H. injection H as <- _. exists []. rewrite app_nil_r. reflexivity.
  - unfold bind. destruct (visitJob j st n) as [[st1 | e] n1] eqn:Hv; [| discriminate].
    intros Hrun. destruct (visitJob_appends j st st1 n n1 Hv) as (es1 & E1).
    destruct (IH st1 st' n1 n' Hrun) as (es2 & E2).
    exists (es1 ++ es2). rewrite E2, E1, app_assoc. reflexivity.
Qed.

Lemma built_day_is_bracketed (u : User.t) (d : Date) (n n' : nat)
    (es : list ScheduleEntry) :
  truthy (User.id u) = true ->
  generateDaySchedule (Some u) (Some d) n = (Ok es, n') ->
  wellBracketed es.
Proof.
  forget_env.
  intros Hid. unfold generateDaySchedule. rewrite Hid. cbn [negb]. unfold bind, ret.
  destruct (forEachJob (sortedJobs u d) (initialState u) n) as [[st | e] n1] eqn:Hrun;
    [| discriminate].
  intros H. injection H as <- _.
  destruct (forEachJob_appends _ _ _ _ _ Hrun) as (mid & Emid).
  rewrite Emid. cbn [initialState schedule app].
  eexists u, mid, _, _. reflexivity.
Qed.

Lemma isStaff_has_id (us : list (option User.t)) :
  Forall (fun u => truthy (User.id u) = true) (filter_present isStaff us).
Proof.
  forget_env.
  induction us as [| [u |] us IH]; cbn [filter_present isStaff].
  - constructor.
  - destruct (String.eqb (User.role u) "staff" && truthy (User.id u)) eqn:E.
    + constructor; [| exact IH]. apply andb_true_iff in E as [_ E]. exact E.
    + exact IH.
  - exact IH.
Qed.

Lemma forEachDay_values (u : User.t) (ts : list Z) :
  truthy (User.id u) = true ->
  forall (m m' : gmap string (list ScheduleEntry)) (n n' : nat),
    (forall key es, m !! key = Some es -> es = [] \/ wellBracketed es) ->
    forEachDay u (map TimeValue ts) m n = (Ok m', n') ->
    forall key es, m' !! key = Some es -> es = [] \/ wellBracketed es.
Proof.
  forget_env.
  intros Hid. induction ts as [| t ts IH]; intros m m' n n' Hm; cbn [map forEachDay].
  - intros H. injection H as <- _. exact Hm.
  - unfold bind. rewrite fillCell_valid.
    destruct (generateDaySchedule (Some u) (Some (TimeValue t)) n)
      as [[built | e] n1] eqn:Hgen; unfold fst, snd, cellEntries; apply IH;
      intros key es;
      (destruct (decide (idText u +:+ "-" +:+ format_yMd t = key)) as [<- | Hne];
       [rewrite lookup_insert_eq; intros H; injection H as <-
       | rewrite lookup_insert_ne by exact Hne; apply Hm]).
    + right. exact (built_day_is_bracketed u _ n n1 built Hid Hgen).
    + left. reflexivity.
Qed.

Lemma forEachStaff_values (us : list User.t) :
  Forall (fun u => truthy (User.id u) = true) us ->
  forall (m m' : gmap string (list ScheduleEntry)) (n n' : nat),
    (forall key es, m !! key = Some es -> es = [] \/ wellBracketed es) ->
    forEachStaff us m n = (Ok m', n') ->
    forall key es, m' !! key = Some es -> es = [] \/ wellBracketed es.
Proof.
  forget_env.
  induction 1 as [| u us Hu _ IH]; intros m m' n n' Hm; cbn [forEachStaff].
  - intros H. injection H as <- _. exact Hm.
  - unfold bind, weekDays.
    destruct (forEachDay u (map TimeValue weekTimes) m n) as [[m1 | e] n1] eqn:Hday;
      [| discriminate].
    apply IH. exact (forEachDay_values u weekTimes Hu m m1 n n1 Hm Hday).
Qed.

(** X20.  Every day list stored in the generated map is either empty (the
    builder threw on that cell) or starts with the base entry of a staff
    member and ends with an end entry. *)
Theorem generated_cells_are_empty_or_bracketed (n : nat) :
  exists (m : gmap string (list ScheduleEntry)) (n' : nat),
    generateSchedules n = (Ok m, n')
    /\ forall key es, m !! key = Some es -> es = [] \/ wellBracketed es.
Proof.
  forget_env.
  destruct (forEachStaff_total (filter_present isStaff staff) ∅ n) as (m & n' & Hrun).
  exists m, n'. split; [exact Hrun |].
  apply (forEachStaff_values _ (isStaff_has_id staff) ∅ m n n'); [| exact Hrun].
  intros key es H. rewrite lookup_empty in H. discriminate H.
Qed.

(* ------------------------------------------------------------------- *)
(** *** More on the CSV export *)
(* ------------------------------------------------------------------- *)

Lemma findStaff_none (staffId : string) :
  (forall u, In (Some u) staff -> User.id u <> Some staffId) ->
  findStaff staffId = None.
Proof.
  forget_env.
  unfold findStaff. induction staff as [| [u |] us IH]; intros H; cbn [find].
  - reflexivity.
  - rewrite bool_decide_eq_false_2 by (apply H; left; reflexivity).
    apply IH. intros u' Hin. apply H. right. exact Hin.
  - apply IH. intros u' Hin. apply H. right. exact Hin.
Qed.

Lemma findStaff_some (staffId : string) (u : User.t) :
  In (Some u) staff -> User.id u = Some staffId ->
  exists u', findStaff staffId = Some u' /\ User.id u' = Some staffId
             /\ In (Some u') staff.
Proof.
  forget_env.
  unfold findStaff. induction staff as [| [x |] us IH]; intros Hin Hid; cbn [find].
  - destruct Hin.
  - destruct (decide (User.id x = Some staffId)) as [Hx | Hx].
    + rewrite bool_decide_eq_true_2 by exact Hx.
      exists x. split; [reflexivity |]. split; [exact Hx | left; reflexivity].
    + rewrite bool_decide_eq_false_2 by exact Hx.
      destruct Hin as [E | Hin]; [injection E as ->; contradiction |].
      destruct (IH Hin Hid) as (u' & Hf & Hu' & Hin').
      exists u'. split; [exact Hf |]. split; [exact Hu' | right; exact Hin'].
  - destruct Hin as [E | Hin]; [discriminate E |].
    destruct (IH Hin Hid) as (u' & Hf & Hu' & Hin').
    exists u'. split; [exact Hf |]. split; [exact Hu' | right; exact Hin'].
Qed.

(** X21.  Asked for an id that no staff record carries, the export does
    nothing: no text is produced, whatever the schedule map holds. *)
Theorem export_of_unknown_id_is_nothing
    (schedules : gmap string (list ScheduleEntry)) (staffId : string)
    (Hunknown : forall u, In (Some u) staff -> User.id u <> Some staffId) :
  exportScheduleCSV schedules staffId = Ok None.
Proof.
  forget_env.
  unfold exportScheduleCSV. rewrite (findStaff_none staffId Hunknown). reflexivity.
Qed.

Lemma header_single_line : has_char LF (join "," csvHeaders) = false.
Proof. reflexivity. Qed.

Lemma expectedRows_nil (schedules : gmap string (list ScheduleEntry))
    (staffId : string) (ts : list Z) :
  entryCount schedules staffId ts = 0%nat -> expectedRows schedules staffId ts = [].
Proof.
  forget_env.
  intros H. rewrite <- expectedRows_length in H.
  destruct (expectedRows schedules staffId ts); [reflexivity | discriminate H].
Qed.

(** X22.  Asked for the id of a staff record, the export always produces
    a text whose first line is the header
    [Date,Time,Type,Location,Description,Duration (min)], whatever the
    entries hold; when the week of that id has no entry the text is the
    header alone. *)
Theorem export_starts_with_header
    (schedules : gmap string (list ScheduleEntry)) (staffId : string) (u : User.t)
    (Hin : In (Some u) staff) (Hid : User.id u = Some staffId) :
  exists (csv : string) (rest : list string),
    exportScheduleCSV schedules staffId = Ok (Some csv)
    /\ lines csv = join "," csvHeaders :: rest
    /\ (entryCount schedules staffId weekTimes = 0%nat -> csv = join "," csvHeaders).
Proof.
  forget_env.
  destruct (findStaff_some staffId u Hin Hid) as (u' & Hfind & _).
  unfold exportScheduleCSV, weekDays. rewrite Hfind, weekRows_valid. cbn [app].
  destruct (expectedRows schedules staffId weekTimes) as [| r rs] eqn:Erows.
  - eexists _, []. split; [reflexivity |]. split; [| intros _; reflexivity].
    unfold lines. apply split_single. reflexivity.
  - eexists _, _. split; [reflexivity |]. split.
    + unfold lines.
      change (join (String LF EmptyString) (join "," csvHeaders :: r :: rs))
        with (join "," csvHeaders +:+ String LF (join (String LF EmptyString) (r :: rs))).
      rewrite split_app by exact header_single_line. reflexivity.
    + intros H0. rewrite (expectedRows_nil _ _ _ H0) in Erows. discriminate Erows.
Qed.

(* ------------------------------------------------------------------- *)
(** *** The cards and the team lists *)
(* ------------------------------------------------------------------- *)

Lemma Visits_first_three (js : list Job.t) (es : list ScheduleEntry) :
  Visits js es -> js <> [] ->
  exists tr jb rest, es = tr :: jb :: rest /\ type tr = travel /\ type jb = job.
Proof.
  forget_env.
  destruct 1 as [| j js jt tt es _ _ _]; intros Hne; [contradiction |].
  eexists _, _, _. split; [reflexivity |]. split; reflexivity.
Qed.

(** X23.  What a card previews of a built day with [k] jobs that carry an
    id: without such a job it shows both entries and no label; with at
    least one it shows the base, the first travel and the first job
    entry, and the label counts the [2 * k - 1] entries left out, the end
    of shift among them. *)
Theorem card_preview_of_built_day (u : User.t) (d : Date) (n : nat)
    (Hvalid : validStaff u = true) :
  exists (es : list ScheduleEntry) (n' : nat),
    generateDaySchedule (Some u) (Some d) n = (Ok es, n')
    /\ (length (List.filter hasId (dayJobs u d)) = 0%nat
        -> shownEntries es = es /\ moreEntriesLabel es = None)
    /\ (length (List.filter hasId (dayJobs u d)) <> 0%nat
        -> map type (shownEntries es) = [base; travel; job]
           /\ moreEntriesLabel es
              = Some ("+" +:+ Z_toString
                                (2 * Z.of_nat (length (List.filter hasId (dayJobs u d))) - 1)
                      +:+ " more entries")).
Proof.
  forget_env.
  destruct (generateDaySchedule_run u d n Hvalid)
    as (vs & st & n' & _ & _ & Hvis & Hgen).
  eexists _, n'. split; [exact Hgen |].
  pose proof (Visits_length _ _ Hvis) as Hlen.
  rewrite visited_sorted_is_visited_day in Hlen.
  set (k := length (List.filter hasId (dayJobs u d))) in *.
  split.
  - intros Hk. rewrite Hk in Hlen. destruct vs; [| discriminate Hlen].
    split; reflexivity.
  - intros Hk.
    destruct (Visits_first_three _ _ Hvis) as (tr & jb & rest & -> & Htr & Hjb).
    { intros E. rewrite E in Hvis. inversion Hvis; subst. apply Hk.
      unfold k. rewrite <- visited_sorted_is_visited_day.
      fold (hasId). cbn [length] in Hlen. lia. }
    split.
    + cbn [shownEntries firstn app map]. rewrite Htr, Hjb. reflexivity.
    + unfold moreEntriesLabel. cbn [length app] in *. rewrite length_app. cbn [length].
      replace (3 <? S (S (S (length rest + 1))))%nat with true
        by (symmetry; apply Nat.ltb_lt; lia).
      replace (Z.of_nat (S (S (S (length rest + 1)))) - 3)
        with (2 * Z.of_nat k - 1) by lia.
      reflexivity.
Qed.

Lemma filter_present_In {A B} (f : option A -> option B) (l : list (option A)) (y : B) :
  In y (filter_present f l) <-> exists x, In x l /\ f x = Some y.
Proof.
  forget_env.
  induction l as [| x l IH]; cbn [filter_present In].
  - split; [intros [] | intros (x & [] & _)].
  - destruct (f x) as [y' |] eqn:E; cbn [In]; rewrite ?IH.
    + split.
      * intros [<- | (x' & Hin & Hx')]; [exists x; auto | exists x'; auto].
      * intros (x' & [<- | Hin] & Hx'); [left; congruence | right; exists x'; auto].
    + split.
      * intros (x' & Hin & Hx'). exists x'; auto.
      * intros (x' & [<- | Hin] & Hx'); [congruence | exists x'; auto].
Qed.

(** X24.  A team list is the schedule cards whose city is exactly that of
    the team.  A staff member without a city therefore appears in no team
    list, although the card labels it Johannesburg and the builder starts
    its day at the Johannesburg base. *)
Theorem team_list_is_cards_of_that_city (u : User.t) (c : string) :
  (In u (team c) <-> In u scheduleCards /\ User.city u = Some c)
  /\ (User.city u = None
      -> cityBadge u = "Johannesburg"%string
         /\ baseLocationData u = Own Johannesburg
         /\ forall c', ~ In u (team c')).
Proof.
  forget_env.
  assert (Hiff : forall c0, In u (team c0) <-> In u scheduleCards /\ User.city u = Some c0).
  { intros c0. unfold team, scheduleCards. rewrite !filter_present_In. split.
    - intros ([x |] & Hin & Hx); [| discriminate Hx]. cbn [inTeam] in Hx.
      destruct (String.eqb (User.role x) "staff") eqn:Er; [| discriminate Hx].
      destruct (bool_decide (User.city x = Some c0)) eqn:Ec; [| discriminate Hx].
      destruct (truthy (User.id x)) eqn:Ei; [| discriminate Hx].
      destruct (truthy (User.name x)) eqn:En; [| discriminate Hx].
      cbn in Hx. injection Hx as ->. apply bool_decide_eq_true in Ec.
      split; [| exact Ec]. exists (Some u). split; [exact Hin |].
      cbn [hasCard]. rewrite Er, Ei, En. reflexivity.
    - intros [([x |] & Hin & Hx) Hc]; [| discriminate Hx]. cbn [hasCard] in Hx.
      destruct (String.eqb (User.role x) "staff") eqn:Er; [| discriminate Hx].
      destruct (truthy (User.id x)) eqn:Ei; [| discriminate Hx].
      destruct (truthy (User.name x)) eqn:En; [| discriminate Hx].
      cbn in Hx. injection Hx as ->.
      exists (Some u). split; [exact Hin |]. cbn [inTeam].
      rewrite Er, Ei, En, bool_decide_eq_true_2 by exact Hc. reflexivity. }
  split; [apply Hiff |].
  intros Hnone. split; [unfold cityBadge; rewrite Hnone; reflexivity |].
  split.
  - unfold baseLocationData, validBaseLocation, baseLocationKey. rewrite Hnone. reflexivity.
  - intros c' Hin. apply Hiff in Hin as [_ Hc]. congruence.
Qed.

(** X25.  The shift badge of a team row reads the stored
    [workingLateShift] alone, the icon of a day card also the week
    parity: the badge says late shift exactly when the icon is the moon
    on every date, and under a normal-shift badge the icon follows the
    week, so that in a late-shift week it is the moon all the same. *)
Theorem shift_badge_and_day_icon (u : User.t) :
  (shiftBadge u = "Late Shift"%string <-> forall d, getShiftTypeIcon u d = Moon)
  /\ (shiftBadge u = "Normal Shift"%string
      <-> forall d, getShiftTypeIcon u d = if isLateShiftWeek d then Moon else Sun)
  /\ (shiftBadge u = "Late Shift"%string \/ shiftBadge u = "Normal Shift"%string).
Proof.
  assert (Hinv : isLateShiftWeek InvalidDate = false) by reflexivity.
  unfold shiftBadge, getShiftTypeIcon, isLateShift.
  destruct (workingLateShift u) as [[|] |];
    (split; [split; intros H | split; [split; intros H |]]);
    try reflexivity; try discriminate H; try (right; reflexivity);
    try (left; reflexivity); try (intros d; reflexivity);
    specialize (H InvalidDate); rewrite Hinv in H; discriminate H.
Qed.
End Component.

(* ===================================================================== *)
(** ** The properties on the sample week *)
(* ===================================================================== *)

Module OnSample.

Import Sample.

(** The week after 1 January 2024 has an odd week number. *)
Lemma monday_is_late_week : isLateShiftWeek jan1_2024 mondayDate = true.
Proof. reflexivity. Qed.

(** C1, as stated, fails: [naledi] has [workingLateShift] explicitly
    [false], yet on the Monday of an odd week the late-shift flag is
    [true] and the shift ends at ["19:00"], not at ["17:00"]. *)
Lemma explicit_false_is_overridden_by_week_parity :
  workingLateShift naledi = Some false
  /\ isLateShift jan1_2024 naledi mondayDate = true
  /\ isLateShift jan1_2024 naledi mondayDate <> false
  /\ shiftEndOf (isLateShift jan1_2024 naledi mondayDate) = "19:00"%string
  /\ shiftEndOf (isLateShift jan1_2024 naledi mondayDate) <> "17:00"%string
  /\ (generateDaySchedule tzOffset parseISO newDate jan1_2024 random jobs
        (Some naledi) (Some mondayDate) 0%nat).1
     = Ok [baseEntry naledi; endEntry true "19:00"].
Proof. repeat split; try reflexivity; discriminate. Qed.

(** The amended C1 on [naledi]: the explicit [false] leaves the week
    parity to decide. *)
Lemma explicit_late_shift_witness :
  workingLateShift naledi = Some false
  /\ isLateShift jan1_2024 naledi mondayDate
     = isLateShiftWeek jan1_2024 mondayDate.
Proof.
  split; [reflexivity |].
  exact (proj1 (proj2 (explicit_late_shift_or_week_parity
                         jan1_2024 naledi mondayDate false eq_refl))).
Defined.

(** C4 on 23:50 and 20 minutes. *)
Lemma add_subtract_witness :
  (0 <= 23 <= 23 /\ 0 <= 50 <= 59 /\ 0 <= 20)
  /\ addMinutes (clock 23 50) 20 = formatMinutes ((23 * 60 + 50 + 20) mod 1440)
  /\ subtractMinutes (clock 23 50) 20 = formatMinutes (Z.max 0 (23 * 60 + 50 - 20)).
Proof.
  split; [lia |].
  pose proof (addMinutes_wraps_subtractMinutes_clamps 23 50 20
                ltac:(lia) ltac:(lia) ltac:(lia)) as H.
  split; [exact (proj1 H) | exact (proj1 (proj2 H))].
Defined.

(** C5 on the Monday of [thabo]. *)
Lemma end_time_floor_witness :
  validStaff thabo = true
  /\ exists (st : LoopState) (n' : nat) (endTime : string),
       generateDaySchedule tzOffset parseISO newDate jan1_2024 random jobs
         (Some thabo) (Some mondayDate) 0%nat
       = (Ok (schedule st ++ [endEntry (isLateShift jan1_2024 thabo mondayDate) endTime]), n')
       /\ exists z, compareTime endTime
                      (shiftEndOf (isLateShift jan1_2024 thabo mondayDate)) = Some z
                    /\ 0 <= z.
Proof.
  split; [reflexivity |].
  destruct (end_time_floor tzOffset parseISO newDate jan1_2024 random jobs
              thabo mondayDate 0%nat eq_refl)
    as (st & n' & endTime & _ & Hgen & _ & _ & _ & Hz).
  exists st, n', endTime. split; [exact Hgen | exact Hz].
Defined.

(** No job of the sample list is assigned to [naledi]. *)
Lemma naledi_has_no_job (j : Job.t) :
  In (Some j) jobs ->
  ~ (Job.assignedTo j = User.id naledi
     /\ exists s, Job.dueDate j = Some s
                  /\ isSameDay tzOffset (parseISO s) mondayDate = true).
Proof.
  intros [H | [H | [H | []]]]; try discriminate H;
    injection H as <-; intros [Ha _]; discriminate Ha.
Qed.

(** C6 on the Monday of [naledi]. *)
Lemma no_matching_job_witness :
  truthy (User.id naledi) = true
  /\ generateDaySchedule tzOffset parseISO newDate jan1_2024 random jobs
       (Some naledi) (Some mondayDate) 0%nat
     = (Ok [baseEntry naledi;
            endEntry (isLateShift jan1_2024 naledi mondayDate)
              (shiftEndOf (isLateShift jan1_2024 naledi mondayDate))], 0%nat).
Proof.
  split; [reflexivity |].
  exact (proj1 (no_matching_job_two_entries tzOffset parseISO newDate jan1_2024
                  random jobs naledi mondayDate 0%nat eq_refl naledi_has_no_job)).
Defined.

(** The jobs of [thabo] on the Monday, in the order of the job list. *)
Lemma thabo_day_jobs : dayJobs tzOffset parseISO jobs thabo mondayDate = [geyser; leak].
Proof. reflexivity. Qed.

Lemma thabo_jobs_readable :
  Forall (fun j => hasId j = true /\ exists t, dueStamp newDate j = Some t)
         (dayJobs tzOffset parseISO jobs thabo mondayDate).
Proof.
  rewrite thabo_day_jobs.
  repeat constructor; eexists; reflexivity.
Qed.

(** The two jobs of the Monday come out in order of due time. *)
Lemma thabo_sorted_jobs :
  sortedJobs tzOffset parseISO newDate jobs thabo mondayDate = [leak; geyser].
Proof. reflexivity. Qed.

(** C7 on the Monday of [thabo]: the leak at 08:00 comes before the
    geyser at 13:30, although the job list names the geyser first; the
    first two entries after the base entry are the travel entry and the
    entry of the leak job, at ["08:00"]. *)
Lemma day_schedule_shape_witness :
  validStaff thabo = true
  /\ exists (visits : list ScheduleEntry) (endTime : string) (n' : nat),
       generateDaySchedule tzOffset parseISO newDate jan1_2024 random jobs
         (Some thabo) (Some mondayDate) 0%nat
       = (Ok (baseEntry thabo :: visits
              ++ [endEntry (isLateShift jan1_2024 thabo mondayDate) endTime]), n')
       /\ Visits tzOffset parseISO [leak; geyser] visits
       /\ length visits = 4%nat
       /\ exists tr jb : ScheduleEntry,
            nth_error visits 0 = Some tr
            /\ nth_error visits 1 = Some jb
            /\ type tr = travel
            /\ type jb = job
            /\ jobId jb = Some "j1"%string
            /\ time jb = "08:00"%string.
Proof.
  split; [reflexivity |].
  destruct (day_schedule_shape tzOffset parseISO newDate jan1_2024 random jobs
              thabo mondayDate 0%nat eq_refl thabo_jobs_readable)
    as (visits & endTime & n' & Hgen & Hvis & _ & _ & _ & _ & _ & _ & Hlen & Hnth & _).
  rewrite thabo_sorted_jobs in Hvis, Hlen, Hnth.
  exists visits, endTime, n'. split; [exact Hgen |].
  split; [exact Hvis |]. split; [exact Hlen |].
  destruct (Hnth 0%nat leak eq_refl)
    as (s & t & tr & jb & tt & Hs & Ht & Htr & Hjb & Hty & _ & _ & _ & Htyj & Hid & Htime).
  injection Hs as <-. vm_compute in Ht. injection Ht as <-.
  exists tr, jb. split; [exact Htr |]. split; [exact Hjb |].
  split; [exact Hty |]. split; [exact Htyj |]. split; [exact Hid | exact Htime].
Defined.

(** The selected Wednesday gives the week from Monday 8 January. *)
Lemma sample_week :
  weekTimes selectedWeek startOfWeek addDays
  = [monday; monday + 1 * day_ms; monday + 2 * day_ms; monday + 3 * day_ms;
     monday + 4 * day_ms; monday + 5 * day_ms; monday + 6 * day_ms].
Proof. vm_compute. reflexivity. Qed.

(** C10 on the Monday of [thabo]: both jobs of the day have their
    travel entry, the leak job among them. *)
Lemma travel_precedes_witness :
  validStaff thabo = true
  /\ exists (es : list ScheduleEntry) (n' : nat),
       generateDaySchedule tzOffset parseISO newDate jan1_2024 random jobs
         (Some thabo) (Some mondayDate) 0%nat = (Ok es, n')
       /\ (forall e, In e es -> type e = travel ->
                     exists t, estimatedDuration e = Some t /\ 15 <= t <= 60
                               /\ (0 <? t) = true)
       /\ exists (i : nat) (tr jb : ScheduleEntry) (travelTime : Z),
            nth_error es i = Some tr
            /\ nth_error es (S i) = Some jb
            /\ type tr = travel
            /\ estimatedDuration tr = Some travelTime
            /\ 15 <= travelTime <= 60
            /\ (0 <? travelTime) = true
            /\ type jb = job
            /\ jobId jb = Job.id leak.
Proof.
  split; [reflexivity |].
  destruct (travel_precedes_every_job tzOffset parseISO newDate jan1_2024 random
              jobs thabo mondayDate 0%nat eq_refl)
    as (es & n' & Hgen & _ & Hb & Hevery).
  exists es, n'. split; [exact Hgen |]. split; [exact Hb |].
  apply (Hevery leak at_0800).
  - right. right. left. reflexivity.
  - reflexivity.
  - reflexivity.
  - reflexivity.
  - discriminate.
  - reflexivity.
Defined.

(** The amended C9 on a week of [thabo] without jobs: 14 entries, 15
    lines. *)
Lemma csv_export_witness :
  (findStaff staff "s1" = Some thabo
   /\ singleLineWeek format_yMd quiet_week "s1"
        (weekTimes selectedWeek startOfWeek addDays) = true)
  /\ exists csv,
       exportScheduleCSV format_yMd staff selectedWeek startOfWeek addDays
         quiet_week "s1" = Ok (Some csv)
       /\ length (lines csv) = 15%nat.
Proof.
  split; [split; vm_compute; reflexivity |].
  destruct (csv_export_lines format_yMd staff selectedWeek startOfWeek addDays
              quiet_week "s1" thabo eq_refl ltac:(vm_compute; reflexivity))
    as (csv & Hexp & _ & _ & Hlen & _).
  exists csv. split; [exact Hexp |]. rewrite Hlen. vm_compute. reflexivity.
Defined.

(** From the Cape Town base every jittered destination is the full hour
    away. *)
Lemma cape_town_is_far (n : nat) :
  estimateTravelTime (base_coordinates Cape_Town) (jitterAt random n) = 60.
Proof.
  apply estimateTravelTime_far. unfold jitterAt, random, Cape_Town.
  cbn [lat lng base_coordinates]. lra.
Qed.

(** The builder on the Monday of [thabo], the job at the two-line address
    being the only job. *)
Lemma thabo_monday :
  generateDaySchedule tzOffset parseISO newDate jan1_2024 random [Some leak_two_lines]
    (Some thabo) (Some (TimeValue monday)) 0%nat
  = (Ok two_line_day, 4%nat).
Proof.
  unfold generateDaySchedule.
  change (truthy (User.id thabo)) with true. cbn [negb].
  change (sortedJobs tzOffset parseISO newDate [Some leak_two_lines] thabo
            (TimeValue monday))
    with [leak_two_lines].
  cbn [forEachJob]. unfold bind.
  rewrite (visitJob_run tzOffset parseISO random leak_two_lines (initialState thabo) 0
             (base_coordinates Cape_Town) (monday + 8 * 3600000)
             eq_refl eq_refl eq_refl eq_refl).
  rewrite cape_town_is_far. reflexivity.
Qed.

(** The other six days of that week hold no job. *)
Lemma thabo_quiet (k : Z) (n : nat) :
  1 <= k <= 6 ->
  generateDaySchedule tzOffset parseISO newDate jan1_2024 random [Some leak_two_lines]
    (Some thabo) (Some (TimeValue (monday + k * day_ms))) n
  = (Ok quiet_day, n).
Proof.
  intros Hk.
  assert (Hcases : k = 1 \/ k = 2 \/ k = 3 \/ k = 4 \/ k = 5 \/ k = 6) by lia.
  destruct Hcases as [-> | [-> | [-> | [-> | [-> | ->]]]]]; reflexivity.
Qed.

(** The week aggregator on that staff member and job. *)
Lemma two_line_week_generated :
  generateSchedules tzOffset parseISO newDate jan1_2024 format_yMd random
    [Some leak_two_lines] [Some thabo] selectedWeek startOfWeek addDays 0%nat
  = (Ok two_line_week, 4%nat).
Proof.
  unfold generateSchedules.
  change (filter_present isStaff [Some thabo]) with [thabo].
  cbn [forEachStaff]. unfold bind at 1. unfold weekDays. rewrite sample_week.
  cbn [map forEachDay]. unfold bind.
  rewrite fillCell_valid, thabo_monday. cbn [fst snd cellEntries].
  repeat (rewrite fillCell_valid, thabo_quiet by lia; cbn [fst snd cellEntries]).
  unfold ret. vm_compute. reflexivity.
Qed.

(** C9, as stated, fails: with [thabo] the only staff member and one job
    whose address is written on two lines, the generated week of [s1]
    holds 16 entries and the exported text has 19 lines, not 17. *)
Lemma two_line_address_adds_lines :
  exists (schedules : gmap string (list ScheduleEntry)) (n' : nat),
    generateSchedules tzOffset parseISO newDate jan1_2024 format_yMd random
      [Some leak_two_lines] [Some thabo] selectedWeek startOfWeek addDays 0%nat
    = (Ok schedules, n')
    /\ entryCount format_yMd schedules "s1"
         (weekTimes selectedWeek startOfWeek addDays) = 16%nat
    /\ exists csv,
         exportScheduleCSV format_yMd [Some thabo] selectedWeek startOfWeek addDays
           schedules "s1" = Ok (Some csv)
         /\ length (lines csv) = 19%nat
         /\ length (lines csv)
            <> S (entryCount format_yMd schedules "s1"
                    (weekTimes selectedWeek startOfWeek addDays)).
Proof.
  exists two_line_week, 4%nat.
  split; [exact two_line_week_generated |].
  split; [vm_compute; reflexivity |].
  eexists. split; [vm_compute; reflexivity |].
  split; [vm_compute; reflexivity | vm_compute; discriminate].
Qed.

(** A cell whose builder throws: the record with the odd city has a job
    on the Monday and the builder raises a [TypeError] on it. *)
Lemma odd_city_builder_throws :
  (generateDaySchedule tzOffset parseISO newDate jan1_2024 random [Some odd_job]
     (Some odd_city) (Some mondayDate) 0%nat).1 = Throw TypeError.
Proof. reflexivity. Qed.

(** The Monday cell is empty and the Tuesday cell keeps its two entries. *)
Lemma odd_city_cell_is_empty :
  exists m n',
    generateSchedules tzOffset parseISO newDate jan1_2024 format_yMd random
      [Some odd_job] [Some odd_city] selectedWeek startOfWeek addDays 0%nat = (Ok m, n')
    /\ m !! "s4-2024-01-08"%string = Some []
    /\ length <$> m !! "s4-2024-01-09"%string = Some 2%nat.
Proof.
  assert (H : match (generateSchedules tzOffset parseISO newDate jan1_2024 format_yMd
                       random [Some odd_job] [Some odd_city] selectedWeek startOfWeek
                       addDays 0%nat).1 with
              | Ok m => m !! "s4-2024-01-08"%string = Some []
                        /\ length <$> m !! "s4-2024-01-09"%string = Some 2%nat
              | Throw _ => False
              end) by (vm_compute; split; reflexivity).
  destruct (generateSchedules _ _ _ _ _ _ _ _ _ _ _ _) as [[m | e] n'];
    [exists m, n'; split; [reflexivity | exact H] | destruct H].
Qed.


(* ------------------------------------------------------------------- *)
(** *** Further properties on the sample week *)
(* ------------------------------------------------------------------- *)

(** X1 on 08:00 and 13:30. *)
Lemma compareTime_orders_witness :
  (0 <= 8 <= 23 /\ 0 <= 0 <= 59 /\ 0 <= 13 <= 23 /\ 0 <= 30 <= 59)
  /\ compareTime (clock 8 0) (clock 13 30) = Some (8 * 60 + 0 - (13 * 60 + 30))
  /\ compareTime (clock 13 30) (clock 8 0) = Some (- (8 * 60 + 0 - (13 * 60 + 30))).
Proof.
  split; [lia |].
  pose proof (compareTime_orders_clock_times 8 0 13 30
                ltac:(lia) ltac:(lia) ltac:(lia) ltac:(lia)) as H.
  split; [exact (proj1 H) | exact (proj1 (proj2 H))].
Defined.

(** X2 on 23:50, 20 and 45 minutes. *)
Lemma addMinutes_composes_witness :
  (0 <= 23 <= 23 /\ 0 <= 50 <= 59 /\ 0 <= 20 /\ 0 <= 45)
  /\ addMinutes (addMinutes (clock 23 50) 20) 45 = addMinutes (clock 23 50) (20 + 45)
  /\ addMinutes (clock 23 50) (20 + 1440) = addMinutes (clock 23 50) 20.
Proof.
  split; [lia |].
  pose proof (addMinutes_composes 23 50 20 45
                ltac:(lia) ltac:(lia) ltac:(lia) ltac:(lia)) as H.
  split; [exact (proj1 (proj2 H)) | exact (proj1 (proj2 (proj2 H)))].
Defined.

(** X3 on 08:00 and 90 minutes. *)
Lemma subtract_after_add_witness :
  (0 <= 8 <= 23 /\ 0 <= 0 <= 59 /\ 0 <= 90 /\ 8 * 60 + 0 + 90 < 1440)
  /\ subtractMinutes (addMinutes (clock 8 0) 90) 90 = clock 8 0.
Proof.
  split; [lia |].
  exact (subtractMinutes_undoes_addMinutes 8 0 90
           ltac:(lia) ltac:(lia) ltac:(lia) ltac:(lia)).
Defined.

(** X4 on 08:00 and 60 minutes. *)
Lemma add_after_subtract_witness :
  (0 <= 8 <= 23 /\ 0 <= 0 <= 59 /\ 0 <= 60 /\ 60 <= 8 * 60 + 0)
  /\ addMinutes (subtractMinutes (clock 8 0) 60) 60 = clock 8 0.
Proof.
  split; [lia |].
  exact (addMinutes_undoes_subtractMinutes 8 0 60
           ltac:(lia) ltac:(lia) ltac:(lia) ltac:(lia)).
Defined.

(** X5 on the text ["0800"]. *)
Lemma time_without_colon_witness :
  has_char ":"%char "0800" = false
  /\ addMinutes "0800" 30 = "NaN:NaN"%string
  /\ subtractMinutes "0800" 30 = "NaN:NaN"%string.
Proof.
  split; [reflexivity |].
  pose proof (time_without_colon_is_NaN "0800" 30 eq_refl) as H.
  split; [exact (proj1 H) | exact (proj1 (proj2 H))].
Defined.

(** X6 on the last day of 2023. *)
Lemma before_2024_witness :
  jan1_2024 - day_ms < jan1_2024
  /\ isLateShiftWeek jan1_2024 (TimeValue (jan1_2024 - day_ms)) = false.
Proof.
  split; [reflexivity |].
  exact (proj1 (isLateShiftWeek_false_before_2024 jan1_2024 (jan1_2024 - day_ms) eq_refl)).
Defined.

(** X7 on Monday 8 January 2024. *)
Lemma alternates_witness :
  jan1_2024 <= monday
  /\ isLateShiftWeek jan1_2024 (TimeValue (monday + week_ms))
     = negb (isLateShiftWeek jan1_2024 (TimeValue monday)).
Proof.
  assert (H : jan1_2024 <= monday) by (vm_compute; discriminate).
  split; [exact H |].
  exact (proj1 (proj2 (isLateShiftWeek_alternates jan1_2024 monday H))).
Defined.

(** X10 on [thabo] and the leak job. *)
Lemma cape_town_first_leg_witness :
  (baseLocationData thabo = Own Cape_Town
   /\ hasId leak = true
   /\ truthy (Job.dueDate leak) = true
   /\ parseISO (default EmptyString (Job.dueDate leak)) = TimeValue (monday + 8 * 3600000)
   /\ (0 <= random 0)%R)
  /\ exists st' : LoopState,
       visitJob tzOffset parseISO random leak (initialState thabo) 0%nat
       = (Ok st', 4%nat)
       /\ map type (schedule st') = [base; travel; job].
Proof.
  assert (Hr : (0 <= random 0)%R) by (unfold random; lra).
  split; [repeat split; try reflexivity; exact Hr |].
  destruct (cape_town_first_leg_is_an_hour tzOffset parseISO random thabo leak 0%nat
              (monday + 8 * 3600000) eq_refl eq_refl eq_refl eq_refl Hr)
    as (st' & Hrun & Hsched & _).
  exists st'. split; [exact Hrun |]. rewrite Hsched. reflexivity.
Defined.

(** X11 on [sipho], whose [workingLateShift] is [true]. *)
Lemma invalid_date_witness :
  truthy (User.id sipho) = true
  /\ generateDaySchedule tzOffset parseISO newDate jan1_2024 random jobs
       (Some sipho) (Some InvalidDate) 0%nat
     = (Ok [baseEntry sipho;
            endEntry (bool_decide (workingLateShift sipho = Some true))
              (shiftEndOf (bool_decide (workingLateShift sipho = Some true)))], 0%nat).
Proof.
  split; [reflexivity |].
  exact (invalid_date_gives_base_and_end tzOffset parseISO newDate jan1_2024 random
           jobs sipho 0%nat eq_refl).
Defined.

(** X12 on the Monday of [thabo]: two jobs, six entries, eight draws. *)
Lemma size_and_draws_witness :
  validStaff thabo = true
  /\ exists es : list ScheduleEntry,
       generateDaySchedule tzOffset parseISO newDate jan1_2024 random jobs
         (Some thabo) (Some mondayDate) 0%nat = (Ok es, 8%nat)
       /\ length es = 6%nat.
Proof.
  split; [reflexivity |].
  exact (day_schedule_size_and_draws tzOffset parseISO newDate jan1_2024 random jobs
           thabo mondayDate 0%nat eq_refl).
Defined.

(** [new Date] reads the due dates of both jobs of the Monday. *)
Lemma thabo_jobs_stamped :
  List.Forall (fun j => exists t, dueStamp newDate j = Some t)
              (dayJobs tzOffset parseISO jobs thabo mondayDate).
Proof.
  rewrite thabo_day_jobs.
  repeat constructor; eexists; reflexivity.
Qed.

(** X13 on the Monday of [thabo]: the leak before the geyser. *)
Lemma job_count_witness :
  (validStaff thabo = true
   /\ List.Forall (fun j => exists t, dueStamp newDate j = Some t)
                  (dayJobs tzOffset parseISO jobs thabo mondayDate))
  /\ exists (es : list ScheduleEntry) (n' : nat),
       generateDaySchedule tzOffset parseISO newDate jan1_2024 random jobs
         (Some thabo) (Some mondayDate) 0%nat = (Ok es, n')
       /\ jobCount es = 2%nat
       /\ map jobId (List.filter isJobEntry es) = [Some "j1"; Some "j2"]%string.
Proof.
  split; [split; [reflexivity | exact thabo_jobs_stamped] |].
  destruct (job_count_of_built_day tzOffset parseISO newDate jan1_2024 random jobs
              thabo mondayDate 0%nat eq_refl thabo_jobs_stamped)
    as (es & n' & Hgen & Hcount & Hids & _).
  exists es, n'. split; [exact Hgen |]. split; [exact Hcount | exact Hids].
Defined.

(** X14 on the Monday of [thabo]. *)
Lemma only_own_jobs_witness :
  validStaff thabo = true
  /\ exists (es : list ScheduleEntry) (n' : nat),
       generateDaySchedule tzOffset parseISO newDate jan1_2024 random jobs
         (Some thabo) (Some mondayDate) 0%nat = (Ok es, n')
       /\ forall e, In e es -> type e = job ->
            exists j : Job.t, In (Some j) jobs /\ Job.assignedTo j = User.id thabo.
Proof.
  split; [reflexivity |].
  destruct (built_day_shows_only_own_jobs tzOffset parseISO newDate jan1_2024 random
              jobs thabo mondayDate 0%nat eq_refl) as (es & n' & Hgen & Hown).
  exists es, n'. split; [exact Hgen |].
  intros e Hin Hjob. destruct (Hown e Hin Hjob) as (j & _ & _ & Hj & Ha & _).
  exists j. split; [exact Hj | exact Ha].
Defined.

(** X15 on the Monday of [thabo]. *)
Lemma travel_not_after_witness :
  validStaff thabo = true
  /\ exists (es : list ScheduleEntry) (n' : nat),
       generateDaySchedule tzOffset parseISO newDate jan1_2024 random jobs
         (Some thabo) (Some mondayDate) 0%nat = (Ok es, n')
       /\ forall (i : nat) (tr : ScheduleEntry),
            nth_error es i = Some tr -> type tr = travel ->
            exists jb z,
              nth_error es (S i) = Some jb /\ type jb = job
              /\ compareTime (time tr) (time jb) = Some z /\ -60 <= z <= 0.
Proof.
  split; [reflexivity |].
  exact (travel_is_never_after_its_job tzOffset parseISO newDate jan1_2024 random
           jobs thabo mondayDate 0%nat eq_refl).
Defined.

(** X16 on the Monday of [naledi], a late-shift week. *)
Lemma shift_icon_witness :
  validStaff naledi = true
  /\ getShiftTypeIcon jan1_2024 naledi mondayDate = Moon
  /\ exists (front : list ScheduleEntry) (last : ScheduleEntry) (n' : nat),
       generateDaySchedule tzOffset parseISO newDate jan1_2024 random jobs
         (Some naledi) (Some mondayDate) 0%nat = (Ok (front ++ [last]), n')
       /\ type last = end_
       /\ description last = "Shift ends (Late Shift)"%string.
Proof.
  split; [reflexivity |]. split; [reflexivity |].
  destruct (shift_icon_matches_end_entry tzOffset parseISO newDate jan1_2024 random
              jobs naledi mondayDate 0%nat eq_refl)
    as (front & last & n' & Hgen & Hty & Hdesc & _).
  exists front, last, n'. split; [exact Hgen |]. split; [exact Hty | exact Hdesc].
Defined.

(** X17 on the geyser job, visited from the Cape Town base. *)
Lemma running_time_witness :
  (hasId geyser = true
   /\ truthy (Job.dueDate geyser) = true
   /\ parseISO (default EmptyString (Job.dueDate geyser))
      = TimeValue (monday + 13 * 3600000 + 30 * 60000)
   /\ currentLocation (initialState thabo) = Some (base_coordinates Cape_Town))
  /\ exists (st' : LoopState) (shown : Z),
       visitJob tzOffset parseISO random geyser (initialState thabo) 0%nat
       = (Ok st', 4%nat)
       /\ currentTime st' = addMinutes (clock 13 30) shown
       /\ 60 <= shown <= 180.
Proof.
  split; [repeat split; reflexivity |].
  destruct (running_time_advances_by_shown_duration tzOffset parseISO random geyser
              (initialState thabo) 0%nat (base_coordinates Cape_Town)
              (monday + 13 * 3600000 + 30 * 60000) eq_refl eq_refl eq_refl eq_refl)
    as (st' & shown & Hrun & _ & Htime & Hrange).
  exists st', shown. split; [exact Hrun |]. split; [exact Htime | exact Hrange].
Defined.

(** No record of the sample staff has the id ["s9"]. *)
Lemma s9_is_unknown (u : User.t) : In (Some u) staff -> User.id u <> Some "s9"%string.
Proof.
  intros [H | [H | [H | []]]]; injection H as <-; discriminate.
Qed.

(** X21 on the id ["s9"]. *)
Lemma export_unknown_witness :
  (forall u, In (Some u) staff -> User.id u <> Some "s9"%string)
  /\ exportScheduleCSV format_yMd staff selectedWeek startOfWeek addDays
       quiet_week "s9" = Ok None.
Proof.
  split; [exact s9_is_unknown |].
  exact (export_of_unknown_id_is_nothing format_yMd staff selectedWeek startOfWeek
           addDays quiet_week "s9"%string s9_is_unknown).
Defined.

(** X22 on [thabo] and the week without jobs. *)
Lemma export_header_witness :
  (In (Some thabo) staff /\ User.id thabo = Some "s1"%string)
  /\ exists (csv : string) (rest : list string),
       exportScheduleCSV format_yMd staff selectedWeek startOfWeek addDays
         quiet_week "s1" = Ok (Some csv)
       /\ lines csv = join "," csvHeaders :: rest.
Proof.
  assert (Hin : In (Some thabo) staff) by (left; reflexivity).
  split; [split; [exact Hin | reflexivity] |].
  destruct (export_starts_with_header format_yMd staff selectedWeek startOfWeek
              addDays quiet_week "s1"%string thabo Hin eq_refl)
    as (csv & rest & Hexp & Hlines & _).
  exists csv, rest. split; [exact Hexp | exact Hlines].
Defined.

(** X23 on the Monday of [thabo]: two jobs, three entries left out. *)
Lemma card_preview_witness :
  validStaff thabo = true
  /\ exists (es : list ScheduleEntry) (n' : nat),
       generateDaySchedule tzOffset parseISO newDate jan1_2024 random jobs
         (Some thabo) (Some mondayDate) 0%nat = (Ok es, n')
       /\ map type (shownEntries es) = [base; travel; job]
       /\ moreEntriesLabel es = Some "+3 more entries"%string.
Proof.
  split; [reflexivity |].
  destruct (card_preview_of_built_day tzOffset parseISO newDate jan1_2024 random
              jobs thabo mondayDate 0%nat eq_refl) as (es & n' & Hgen & _ & Hmore).
  exists es, n'. split; [exact Hgen |].
  apply Hmore. vm_compute. discriminate.
Defined.
End OnSample.
